(** * TextSearch_CompareChecker: the two folder scans

    A shallow embedding of [run_text_search] and [run_compare_check] of
    [Python_Script/TextSearch_CompareChecker.py], with the pieces of the
    Python runtime they rest on ([str] methods, [re.search], [os.walk],
    file reading), followed by the properties of the scans.

    Text is modelled as [string]: a sequence of code points below 256.
    On that range [str.lower], [str.isspace], the [\s] and [\d] classes
    of [re] and the [re.IGNORECASE] comparison are exactly the functions
    below.  Text with code points from 256 on is outside the model: there
    [str.lower] may change the length of a string, [\d] and [int] accept
    further digits, and [re.IGNORECASE] also folds U+0130, U+0131 and
    U+017F onto ASCII letters. *)

From Stdlib Require Import String Ascii List NArith Bool Arith Lia.
From Stdlib Require DecimalString.
Import ListNotations.
Open Scope string_scope.

(** ** Python [str] *)

Module PyStr.

Definition ord (c : ascii) : N := N_of_ascii c.
Definition chr (n : N) : ascii := ascii_of_N n.

(** Code points with a distinct lowercase form: [A-Z], and the
    Latin-1 capitals U+00C0..U+00DE without the multiplication sign. *)
Definition isupper_char (c : ascii) : bool :=
  let n := ord c in
  ((65 <=? n) && (n <=? 90) || (192 <=? n) && (n <=? 222) && negb (n =? 215))%N.

Definition lower_char (c : ascii) : ascii :=
  if isupper_char c then chr (ord c + 32) else c.

(** [s.lower()] *)
Fixpoint lower (s : string) : string :=
  match s with
  | EmptyString => EmptyString
  | String c s' => String (lower_char c) (lower s')
  end.

(** [c.isspace()], which is also the class [\s] of a [str] pattern:
    TAB..CR, FS..US, SPACE, NEL and NBSP. *)
Definition isspace (c : ascii) : bool :=
  let n := ord c in
  ((9 <=? n) && (n <=? 13) || (28 <=? n) && (n <=? 32) || (n =? 133) || (n =? 160))%N.

(** [c.isdecimal()], the class [\d] of a [str] pattern. *)
Definition isdecimal (c : ascii) : bool :=
  let n := ord c in ((48 <=? n) && (n <=? 57))%N.

Fixpoint lstrip (s : string) : string :=
  match s with
  | EmptyString => EmptyString
  | String c s' => if isspace c then lstrip s' else s
  end.

Fixpoint rstrip (s : string) : string :=
  match s with
  | EmptyString => EmptyString
  | String c s' =>
      match rstrip s' with
      | EmptyString => if isspace c then EmptyString else String c EmptyString
      | r => String c r
      end
  end.

(** [s.strip()] *)
Definition strip (s : string) : string := rstrip (lstrip s).

(** [s.endswith(suffix)] *)
Fixpoint endswith (s suffix : string) : bool :=
  (s =? suffix) ||
  match s with
  | EmptyString => false
  | String _ s' => endswith s' suffix
  end.

(** [needle in hay] *)
Fixpoint str_in (needle hay : string) : bool :=
  prefix needle hay ||
  match hay with
  | EmptyString => false
  | String _ hay' => str_in needle hay'
  end.

(** [sep.join(parts)] *)
Definition join (sep : string) (parts : list string) : string :=
  String.concat sep parts.

Fixpoint int_from (acc : N) (s : string) : N :=
  match s with
  | EmptyString => acc
  | String c s' => int_from (acc * 10 + (ord c - 48)) s'
  end.

(** [sys.int_info.default_max_str_digits]: the longest digit string
    [int] converts. *)
Definition max_str_digits : nat := 4300.

(** [int(s)] for a string of decimal digits: its value, or [None] when
    the string has more digits than the limit and [int] raises
    [ValueError]. *)
Definition int (s : string) : option N :=
  if Nat.ltb max_str_digits (String.length s) then None else Some (int_from 0 s).

Definition newline : ascii := "010"%char.

(** The lines a text file yields when iterated over: each one keeps its
    terminating newline, the last one may lack it, none is empty. *)
Fixpoint readlines (s : string) : list string :=
  match s with
  | EmptyString => []
  | String c s' =>
      if Ascii.eqb c newline then String c EmptyString :: readlines s'
      else match readlines s' with
           | [] => [String c EmptyString]
           | l :: ls => String c l :: ls
           end
  end.

(** [enumerate(xs, start)] *)
Fixpoint enumerate {A : Type} (xs : list A) (start : nat) : list (nat * A) :=
  match xs with
  | [] => []
  | x :: xs' => (start, x) :: enumerate xs' (S start)
  end.

End PyStr.

Example lower_mixed : PyStr.lower "ERROR: Bad Value" = "error: bad value".
Proof. reflexivity. Qed.

Example strip_both : PyStr.strip "  a b  " = "a b".
Proof. reflexivity. Qed.

Example readlines_keep_ends :
  PyStr.readlines (String "a" (String PyStr.newline (String PyStr.newline "b")))
  = [String "a" (String PyStr.newline ""); String PyStr.newline ""; "b"].
Proof. reflexivity. Qed.

Example endswith_ext : PyStr.endswith "a.sas" ".sas" = true /\ PyStr.endswith "a.sas7" ".sas" = false.
Proof. split; reflexivity. Qed.

Example int_digits : PyStr.int "0042" = Some 42%N.
Proof. reflexivity. Qed.

(** ** The fragment of [re] the classifier uses *)

Module Re.

(** A pattern is a sequence of items.  [Lit c] is one literal character,
    compared the way [re.IGNORECASE] does; [ClassPlus cls capture] is
    [cls+], greedy with backtracking, and a capturing group when
    [capture] holds. *)
Inductive item : Type :=
| Lit (c : ascii)
| ClassPlus (cls : ascii -> bool) (capture : bool).

Definition pattern : Type := list item.

(** A pattern character against a text character under
    [re.IGNORECASE], for text below code point 256: equal after
    lowercasing. *)
Definition eq_ignorecase (p c : ascii) : bool :=
  Ascii.eqb (PyStr.lower_char c) (PyStr.lower_char p).

(** [cls+] from [s] on: consume while the class matches, trying the
    longest run first and giving characters back until the continuation
    [k] (the rest of the pattern) succeeds.  [acc] is what the repetition
    has consumed before [s]. *)
Fixpoint match_plus {R : Type} (cls : ascii -> bool)
    (k : string -> string -> option R) (acc s : string) : option R :=
  match s with
  | EmptyString => None
  | String c s' =>
      if cls c then
        let acc' := (acc ++ String c EmptyString)%string in
        match match_plus cls k acc' s' with
        | Some r => Some r
        | None => k acc' s'
        end
      else None
  end.

(** Match [p] at the start of [s]; the result lists the captured groups. *)
Fixpoint match_here (p : pattern) (groups : list string) (s : string)
    : option (list string) :=
  match p with
  | [] => Some groups
  | Lit c :: p' =>
      match s with
      | EmptyString => None
      | String d s' => if eq_ignorecase c d then match_here p' groups s' else None
      end
  | ClassPlus cls capture :: p' =>
      match_plus cls
        (fun consumed rest =>
           match_here p' (if capture then (groups ++ [consumed])%list else groups) rest)
        EmptyString s
  end.

(** [re.search(p, s, re.IGNORECASE)]: the match at the leftmost position
    that has one, [None] when no position has. *)
Fixpoint search (p : pattern) (s : string) : option (list string) :=
  match match_here p [] s with
  | Some groups => Some groups
  | None =>
      match s with
      | EmptyString => None
      | String _ s' => search p s'
      end
  end.

(** [m.group(n)] for [n >= 1]. *)
Definition group (m : list string) (n : nat) : string :=
  nth (n - 1) m EmptyString.

Definition literal (w : string) : pattern := map Lit (list_ascii_of_string w).

End Re.

Definition marker_phrase : string :=
  "Number of Observations with Some Compared Variables Unequal:".

(** [r"Number of Observations with Some Compared Variables Unequal:\s+(\d+)"] *)
Definition compare_pattern : Re.pattern :=
  (Re.literal marker_phrase
     ++ [Re.ClassPlus PyStr.isspace false; Re.ClassPlus PyStr.isdecimal true])%list.

Definition nl : string := String PyStr.newline EmptyString.

Example search_zero :
  Re.search compare_pattern ("x number OF observations with some compared variables unequal:    0" ++ nl)
  = Some ["0"].
Proof. vm_compute. reflexivity. Qed.

Example search_greedy_digits :
  Re.search compare_pattern (marker_phrase ++ " " ++ nl ++ "307 rows")
  = Some ["307"].
Proof. vm_compute. reflexivity. Qed.

Example search_needs_space :
  Re.search compare_pattern (marker_phrase ++ "3") = None.
Proof. vm_compute. reflexivity. Qed.

Example search_needs_digit :
  Re.search compare_pattern (marker_phrase ++ "  none") = None.
Proof. vm_compute. reflexivity. Qed.

(** ** The folder tree and the files in it *)

(** What the two ways of reading a file give.  [as_text] is the outcome
    of [open(path, 'r', errors='ignore')] followed by reading: the decoded
    text with every line ending turned into a newline (undecodable bytes
    are dropped by the decoder, never an error), or [None] when opening or
    reading raises.  [as_pdf] is the outcome of
    [fitz.open(path)] followed by [get_text()] on each page: the page
    texts in page order, or [None] when either raises. *)
Record file_data : Type := mk_file_data {
  as_text : option string;
  as_pdf : option (list string)
}.

#[local] Set Warnings "-register-all".

(** A directory: its plain files and its sub-directories, each in the
    order the listing gives them. *)
Inductive dir : Type :=
| Dir (files : list (string * file_data)) (subdirs : list (string * dir)).

(** The directories that exist, by path: [fs folder = None] is
    [not os.path.isdir(folder)]. *)
Definition filesystem : Type := string -> option dir.

(** [os.path.join(a, b)] *)
Definition os_path_join (a b : string) : string :=
  if prefix "/" b then b
  else if (a =? "") || PyStr.endswith a "/" then a ++ b
  else a ++ "/" ++ b.

(** [os.walk(top)], top-down: a directory before its sub-directories;
    the middle component of the triples is not used by the callers. *)
Fixpoint os_walk (top : string) (d : dir) : list (string * list (string * file_data)) :=
  match d with
  | Dir files subdirs =>
      (top, files) ::
      (fix walk_subdirs (l : list (string * dir)) :=
         match l with
         | [] => []
         | (name, sub) :: l' =>
             (os_walk (os_path_join top name) sub ++ walk_subdirs l')%list
         end) subdirs
  end.

(** ** The window *)

(** The text of a list entry: [f"{file} [Line {i}]: {line.strip()}"] for a
    search hit (the third component is the stripped line) and
    [f"{file}: {status}"] for a comparison report. *)
Inductive item_text : Type :=
| SearchText (file : string) (i : nat) (stripped : string)
| CompareText (file status : string).

(** A [QListWidgetItem]: its text, the [(path, line)] pair stored under
    [Qt.UserRole], and the background colour when one was set. *)
Record QListWidgetItem : Type := mk_item {
  text : item_text;
  data : string * option nat;
  background : option string
}.

(** The text of a status label. *)
Inductive label_text : Type :=
| NoText
| InvalidFolder
| Found (count total : nat)
| Scanned (total passed failed : nat).

(** The widgets of [CompareChecker] the two scans read and write. *)
Record CompareChecker : Type := mk_window {
  search_folder : string;
  search_input : string;
  filetype_combo : string;
  search_results : list QListWidgetItem;
  search_status : label_text;
  compare_folder : string;
  compare_filetype : string;
  status_filter : string;
  compare_results : list QListWidgetItem;
  compare_status : label_text
}.

Definition set_search_results (self : CompareChecker) (l : list QListWidgetItem) : CompareChecker :=
  mk_window (search_folder self) (search_input self) (filetype_combo self)
    l (search_status self)
    (compare_folder self) (compare_filetype self) (status_filter self)
    (compare_results self) (compare_status self).

Definition set_search_status (self : CompareChecker) (t : label_text) : CompareChecker :=
  mk_window (search_folder self) (search_input self) (filetype_combo self)
    (search_results self) t
    (compare_folder self) (compare_filetype self) (status_filter self)
    (compare_results self) (compare_status self).

Definition set_compare_results (self : CompareChecker) (l : list QListWidgetItem) : CompareChecker :=
  mk_window (search_folder self) (search_input self) (filetype_combo self)
    (search_results self) (search_status self)
    (compare_folder self) (compare_filetype self) (status_filter self)
    l (compare_status self).

Definition set_compare_status (self : CompareChecker) (t : label_text) : CompareChecker :=
  mk_window (search_folder self) (search_input self) (filetype_combo self)
    (search_results self) (search_status self)
    (compare_folder self) (compare_filetype self) (status_filter self)
    (compare_results self) t.

(** [ext != "All" and not file.lower().endswith(ext)] *)
Definition filtered_out (ext file : string) : bool :=
  negb (ext =? "All") && negb (PyStr.endswith (PyStr.lower file) ext).

(** ** [run_text_search] *)

(** The running state of the scan: the entries added to the list so far
    and the two counters. *)
Record search_state : Type := mk_search_state {
  s_items : list QListWidgetItem;
  s_count : nat;
  s_total : nat
}.

(** [any(file.lower().endswith(x) for x in [".sas", ".txt", ".log"])] *)
Definition searchable (file : string) : bool :=
  existsb (fun x => PyStr.endswith (PyStr.lower file) x) [".sas"; ".txt"; ".log"].

(** The body of [for i, line in enumerate(f, 1)]. *)
Definition search_line (search_term file path : string)
    (st : search_state) (il : nat * string) : search_state :=
  let (i, line) := il in
  if PyStr.str_in search_term (PyStr.lower line) then
    let item := mk_item (SearchText file i (PyStr.strip line)) (path, Some i) None in
    mk_search_state (s_items st ++ [item])%list (S (s_count st)) (s_total st)
  else st.

(** The body of [for file in files]. *)
Definition search_file (search_term ext root : string)
    (st : search_state) (f : string * file_data) : search_state :=
  let (file, fd) := f in
  if filtered_out ext file then st
  else if negb (searchable file) then st
  else
    let st := mk_search_state (s_items st) (s_count st) (S (s_total st)) in
    let path := os_path_join root file in
    match as_text fd with
    | None => st
    | Some content =>
        fold_left (search_line search_term file path)
          (PyStr.enumerate (PyStr.readlines content) 1) st
    end.

(** The body of [for root, _, files in os.walk(folder)]. *)
Definition search_dir (search_term ext : string)
    (st : search_state) (rf : string * list (string * file_data)) : search_state :=
  let (root, files) := rf in
  fold_left (search_file search_term ext root) files st.

Definition run_text_search (fs : filesystem) (self : CompareChecker) : CompareChecker :=
  let folder := PyStr.strip (search_folder self) in
  let search_term := PyStr.lower (PyStr.strip (search_input self)) in
  let ext := filetype_combo self in
  let self := set_search_results self [] in
  match fs folder with
  | None => set_search_status self InvalidFolder
  | Some d =>
      let st := fold_left (search_dir search_term ext) (os_walk folder d)
                  (mk_search_state [] 0 0) in
      set_search_status (set_search_results self (s_items st))
        (Found (s_count st) (s_total st))
  end.

(** ** [run_compare_check] *)

(** How a piece of code ends: it runs to its end in a state, or a
    [ValueError] leaves it in the state reached. *)
Inductive outcome (A : Type) : Type :=
| Returned (a : A)
| Raised (a : A).

Arguments Returned {A} a.
Arguments Raised {A} a.

(** The state a piece of code is left in, either way. *)
Definition state_of {A : Type} (o : outcome A) : A :=
  match o with
  | Returned a => a
  | Raised a => a
  end.

Definition raised {A : Type} (o : outcome A) : bool :=
  match o with
  | Returned _ => false
  | Raised _ => true
  end.

(** A [for] loop whose body may raise: the exception ends the loop. *)
Fixpoint for_each {A B : Type} (body : A -> B -> outcome A) (l : list B) (a : A)
    : outcome A :=
  match l with
  | [] => Returned a
  | b :: l' =>
      match body a b with
      | Returned a' => for_each body l' a'
      | Raised a' => Raised a'
      end
  end.

Record compare_state : Type := mk_compare_state {
  c_items : list QListWidgetItem;
  c_passed : nat;
  c_failed : nat;
  c_total : nat
}.

(** The [try] block: the text of a file, [None] when reading it raises. *)
Definition extract_text (file : string) (fd : file_data) : option string :=
  if PyStr.endswith file ".pdf" then
    match as_pdf fd with
    | Some pages => Some (PyStr.join nl pages)
    | None => None
    end
  else as_text fd.

(** The body of [for file in files].  The conversion of the captured
    digits stands outside the [try] block: when it raises, the file has
    changed nothing yet. *)
Definition compare_file (filter_status ext root : string)
    (st : compare_state) (f : string * file_data) : outcome compare_state :=
  let (file, fd) := f in
  if filtered_out ext file then Returned st
  else
    let path := os_path_join root file in
    match extract_text file fd with
    | None => Returned st
    | Some content =>
        match Re.search compare_pattern content with
        | None => Returned st
        | Some m =>
            match PyStr.int (Re.group m 1) with
            | None => Raised st
            | Some unequal =>
                let status := if (unequal =? 0)%N then "Passed" else "Failed" in
                let items :=
                  if (filter_status =? "All") || (filter_status =? status) then
                    let color := if status =? "Passed" then "#c6f6c6" else "#f6c6c6" in
                    (c_items st ++ [mk_item (CompareText file status) (path, None) (Some color)])%list
                  else c_items st in
                let passed := if status =? "Passed" then S (c_passed st) else c_passed st in
                let failed := if status =? "Passed" then c_failed st else S (c_failed st) in
                Returned (mk_compare_state items passed failed (S (c_total st)))
            end
        end
    end.

(** The body of [for root, _, files in os.walk(folder)]. *)
Definition compare_dir (filter_status ext : string)
    (st : compare_state) (rf : string * list (string * file_data))
    : outcome compare_state :=
  let (root, files) := rf in
  for_each (compare_file filter_status ext root) files st.

(** The entries are added to the list as the scan goes, the status line
    is written at its end: when the scan raises, the window keeps the
    entries added so far and the status line it had. *)
Definition run_compare_check (fs : filesystem) (self : CompareChecker)
    : outcome CompareChecker :=
  let folder := PyStr.strip (compare_folder self) in
  let ext := compare_filetype self in
  let filter_status := status_filter self in
  let self := set_compare_results self [] in
  match fs folder with
  | None => Returned (set_compare_status self InvalidFolder)
  | Some d =>
      match for_each (compare_dir filter_status ext) (os_walk folder d)
              (mk_compare_state [] 0 0 0) with
      | Returned st =>
          Returned (set_compare_status (set_compare_results self (c_items st))
                      (Scanned (c_total st) (c_passed st) (c_failed st)))
      | Raised st => Raised (set_compare_results self (c_items st))
      end
  end.

(** * Properties *)

(** ** Vocabulary of the statements *)

(** [hay] contains [needle] as a substring. *)
Definition contains (hay needle : string) : Prop :=
  exists before after, hay = before ++ needle ++ after.

Fixpoint all_chars (cls : ascii -> bool) (s : string) : bool :=
  match s with
  | EmptyString => true
  | String c s' => cls c && all_chars cls s'
  end.

(** [s] is one or more characters of the class [cls]. *)
Definition run_of (cls : ascii -> bool) (s : string) : Prop :=
  s <> "" /\ all_chars cls s = true.

(** The text contains, up to letter case, the marker phrase followed by
    whitespace and one or more decimal digits. *)
Definition has_marker (content : string) : Prop :=
  exists before phrase spaces digits after,
    content = before ++ phrase ++ spaces ++ digits ++ after /\
    PyStr.lower phrase = PyStr.lower marker_phrase /\
    run_of PyStr.isspace spaces /\
    run_of PyStr.isdecimal digits.

(** The file name, lowercased, ends with one of the three extensions the
    text search reads. *)
Definition search_extension (file : string) : Prop :=
  PyStr.endswith (PyStr.lower file) ".sas" = true \/
  PyStr.endswith (PyStr.lower file) ".txt" = true \/
  PyStr.endswith (PyStr.lower file) ".log" = true.

(** The files of a walk with the directory each one was listed in. *)
Definition walked_files (w : list (string * list (string * file_data)))
    : list (string * (string * file_data)) :=
  flat_map (fun rf => map (fun f => (fst rf, f)) (snd rf)) w.

(** The entry the search adds for line [i] of a file. *)
Definition hit_entry (file path : string) (il : nat * string) : QListWidgetItem :=
  mk_item (SearchText file (fst il) (PyStr.strip (snd il))) (path, Some (fst il)) None.

(** The entries of the numbered lines that contain the search term. *)
Definition line_hits (search_term file path : string) (ils : list (nat * string))
    : list QListWidgetItem :=
  map (hit_entry file path)
    (filter (fun il => PyStr.str_in search_term (PyStr.lower (snd il))) ils).

(** The file passes both extension tests of the search. *)
Definition read_by_search (ext file : string) : bool :=
  negb (filtered_out ext file) && searchable file.

(** The entries one walked file contributes to a search. *)
Definition file_hits (search_term ext : string) (rf : string * (string * file_data))
    : list QListWidgetItem :=
  let file := fst (snd rf) in
  if read_by_search ext file then
    match as_text (snd (snd rf)) with
    | Some content =>
        line_hits search_term file (os_path_join (fst rf) file)
          (PyStr.enumerate (PyStr.readlines content) 1)
    | None => []
    end
  else [].

(** One entry for every line of a walked file the search reads. *)
Definition all_lines (ext : string) (rf : string * (string * file_data))
    : list QListWidgetItem :=
  let file := fst (snd rf) in
  if read_by_search ext file then
    match as_text (snd (snd rf)) with
    | Some content =>
        map (hit_entry file (os_path_join (fst rf) file))
          (PyStr.enumerate (PyStr.readlines content) 1)
    | None => []
    end
  else [].

(** The status written on a comparison entry. *)
Definition item_status (it : QListWidgetItem) : string :=
  match text it with
  | CompareText _ status => status
  | SearchText _ _ _ => ""
  end.

(** An entry passes the status filter. *)
Definition shown (filter_status : string) (it : QListWidgetItem) : bool :=
  (filter_status =? "All") || (filter_status =? item_status it).

(** The state under a status filter against the state under "All". *)
Definition filtered_view (filter_status : string) (st st_all : compare_state) : Prop :=
  c_items st = filter (shown filter_status) (c_items st_all) /\
  c_passed st = c_passed st_all /\
  c_failed st = c_failed st_all /\
  c_total st = c_total st_all.

(** The selection of the status combo box. *)
Definition set_status_filter (self : CompareChecker) (f : string) : CompareChecker :=
  mk_window (search_folder self) (search_input self) (filetype_combo self)
    (search_results self) (search_status self)
    (compare_folder self) (compare_filetype self) f
    (compare_results self) (compare_status self).


(** ** Sample folders *)

Definition text_file (content : string) : file_data :=
  mk_file_data (Some content) None.

Definition pdf_file (raw : string) (pages : list string) : file_data :=
  mk_file_data (Some raw) (Some pages).

Definition unreadable_file : file_data := mk_file_data None None.

Definition report (unequal : string) : string :=
  "The COMPARE Procedure" ++ nl ++ marker_phrase ++ "    " ++ unequal ++ nl.

(** Two listings, one clean and one with three differing observations,
    a text file that is no report, and a PDF report one level down. *)
Definition reports_fs : filesystem :=
  fun folder =>
    if folder =? "/out" then
      Some (Dir [("r1.lst", text_file (report "0"));
                 ("r2.lst", text_file (report "3"));
                 ("notes.txt", text_file "nothing compared")]
                [("pdf", Dir [("r3.pdf", pdf_file "%PDF-1.7" ["page one"; report "0"])] [])])
    else None.

(** A program with an error on its second line, a log, a file the search
    does not read and a text file that cannot be opened. *)
Definition project_fs : filesystem :=
  fun folder =>
    if folder =? "/proj" then
      Some (Dir [("a.sas", text_file ("data x;" ++ nl ++ "  ERROR: bad value " ++ nl ++ "run;"));
                 ("b.LOG", text_file ("NOTE: ok" ++ nl));
                 ("c.pdf", pdf_file "%PDF-1.7" ["error"]);
                 ("locked.txt", unreadable_file)]
                [])
    else None.

Definition window (folder input ext status : string) : CompareChecker :=
  mk_window folder input ext [] NoText folder ext status [] NoText.

(** ** Strings *)

Section StringFacts.

Lemma append_nil_r (s : string) : s ++ "" = s.
Proof. induction s as [|c s IH]; simpl; [reflexivity | now rewrite IH]. Qed.

Lemma append_assoc (a b c : string) : (a ++ b) ++ c = a ++ b ++ c.
Proof. induction a as [|x a IH]; simpl; [reflexivity | now rewrite IH]. Qed.

Lemma prefix_iff (p s : string) :
  prefix p s = true <-> exists rest, s = p ++ rest.
Proof.
  revert s. induction p as [|c p IH]; intros s.
  - destruct s; simpl; split; intros; eauto.
  - destruct s as [|d s]; simpl.
    + split; [discriminate | intros [rest H]; discriminate].
    + destruct (ascii_dec c d) as [->|Hne].
      * rewrite IH. split; intros [rest H]; exists rest; [now subst | now inversion H].
      * split; [discriminate | intros [rest H]; inversion H; congruence].
Qed.

Lemma str_in_nil (needle : string) :
  PyStr.str_in needle "" = prefix needle "" || false.
Proof. reflexivity. Qed.

Lemma str_in_cons (needle : string) (c : ascii) (hay : string) :
  PyStr.str_in needle (String c hay)
  = prefix needle (String c hay) || PyStr.str_in needle hay.
Proof. reflexivity. Qed.

Lemma str_in_iff (needle hay : string) :
  PyStr.str_in needle hay = true <-> contains hay needle.
Proof.
  unfold contains. induction hay as [|c hay IH].
  - rewrite str_in_nil, orb_false_r, prefix_iff. split.
    + intros [rest H]. exists "", rest. exact H.
    + intros [[|b before] [after H]]; [eauto | discriminate].
  - rewrite str_in_cons, orb_true_iff, prefix_iff, IH. split.
    + intros [[rest H] | [before [after H]]].
      * exists "", rest. exact H.
      * exists (String c before), after. simpl. now rewrite H.
    + intros [[|b before] [after H]].
      * left. eauto.
      * right. simpl in H. inversion H. eauto.
Qed.

Lemma str_in_empty (hay : string) : PyStr.str_in "" hay = true.
Proof. apply str_in_iff. exists "", hay. reflexivity. Qed.

Lemma lower_append (a b : string) :
  PyStr.lower (a ++ b) = PyStr.lower a ++ PyStr.lower b.
Proof. induction a as [|c a IH]; simpl; [reflexivity | now rewrite IH]. Qed.

Lemma all_chars_append (cls : ascii -> bool) (a b : string) :
  all_chars cls (a ++ b) = all_chars cls a && all_chars cls b.
Proof.
  induction a as [|c a IH]; simpl; [reflexivity|].
  now rewrite IH, andb_assoc.
Qed.

End StringFacts.

(** ** The matcher against the shape of the text *)

Section Matcher.

Lemma eq_ignorecase_iff (p c : ascii) :
  Re.eq_ignorecase p c = true <-> PyStr.lower_char c = PyStr.lower_char p.
Proof. unfold Re.eq_ignorecase. apply Ascii.eqb_eq. Qed.

Lemma literal_cons (c : ascii) (w : string) (p : Re.pattern) :
  (Re.literal (String c w) ++ p)%list = Re.Lit c :: (Re.literal w ++ p)%list.
Proof. reflexivity. Qed.

Lemma match_here_literal (w : string) (p : Re.pattern) (g : list string) :
  forall s r,
    Re.match_here (Re.literal w ++ p)%list g s = Some r <->
    exists phrase rest,
      s = phrase ++ rest /\ PyStr.lower phrase = PyStr.lower w /\
      Re.match_here p g rest = Some r.
Proof.
  induction w as [|c w IH]; intros s r.
  - change (Re.literal "" ++ p)%list with p. split.
    + intros H. exists "", s. auto.
    + intros [[|d phrase] [rest [Hs [Hl Hm]]]]; [now subst | discriminate].
  - rewrite literal_cons. cbn [Re.match_here]. destruct s as [|d s].
    + split; [discriminate|].
      intros [[|e phrase] [rest [Hs [Hl _]]]]; discriminate.
    + destruct (Re.eq_ignorecase c d) eqn:E.
      * rewrite IH. apply eq_ignorecase_iff in E. split.
        -- intros [phrase [rest [Hs [Hl Hm]]]].
           exists (String d phrase), rest. simpl. rewrite Hs, Hl, E. auto.
        -- intros [[|e phrase] [rest [Hs [Hl Hm]]]]; [discriminate|].
           simpl in Hs, Hl. inversion Hs; subst. inversion Hl.
           exists phrase, rest. auto.
      * split; [discriminate|].
        intros [[|e phrase] [rest [Hs [Hl _]]]]; [discriminate|].
        simpl in Hs, Hl. inversion Hs; subst. inversion Hl as [[Hc Hw]].
        apply eq_ignorecase_iff in Hc. congruence.
Qed.

Lemma append_snoc (acc : string) (c : ascii) (run : string) :
  (acc ++ String c "") ++ run = acc ++ String c run.
Proof. now rewrite append_assoc. Qed.

Lemma match_plus_sound {R : Type} (cls : ascii -> bool)
    (k : string -> string -> option R) :
  forall s acc r,
    Re.match_plus cls k acc s = Some r ->
    exists run rest,
      s = run ++ rest /\ run_of cls run /\ k (acc ++ run) rest = Some r.
Proof.
  induction s as [|c s IH]; intros acc r H; simpl in H; [discriminate|].
  destruct (cls c) eqn:Ec; [|discriminate].
  destruct (Re.match_plus cls k (acc ++ String c "") s) as [r0|] eqn:Em.
  - apply IH in Em. destruct Em as [run [rest [Hs [[_ Ha] Hk]]]].
    exists (String c run), rest. rewrite append_snoc in Hk.
    repeat split; [now rewrite Hs | discriminate | simpl; now rewrite Ec | congruence].
  - exists (String c ""), s. repeat split; [discriminate | simpl; now rewrite Ec | exact H].
Qed.

Lemma match_plus_complete {R : Type} (cls : ascii -> bool)
    (k : string -> string -> option R) :
  forall run acc rest r,
    run_of cls run ->
    k (acc ++ run) rest = Some r ->
    exists r', Re.match_plus cls k acc (run ++ rest) = Some r'.
Proof.
  induction run as [|c run IH]; intros acc rest r [Hne Ha] Hk; [contradiction|].
  simpl in Ha. apply andb_true_iff in Ha. destruct Ha as [Ec Ha].
  simpl. rewrite Ec.
  destruct (Re.match_plus cls k (acc ++ String c "") (run ++ rest)) as [r0|] eqn:Em;
    [eauto|].
  destruct run as [|d run].
  - simpl in Em |- *. eauto.
  - rewrite <- append_snoc in Hk.
    destruct (IH (acc ++ String c "") rest r) as [r' Hr'];
      [split; [discriminate | exact Ha] | exact Hk | congruence].
Qed.

Lemma search_sound (p : Re.pattern) :
  forall s m,
    Re.search p s = Some m ->
    exists before rest, s = before ++ rest /\ Re.match_here p [] rest = Some m.
Proof.
  induction s as [|c s IH]; intros m H; simpl in H.
  - destruct (Re.match_here p [] "") eqn:E; [|discriminate].
    exists "", "". split; [reflexivity | congruence].
  - destruct (Re.match_here p [] (String c s)) eqn:E.
    + exists "", (String c s). split; [reflexivity | congruence].
    + apply IH in H. destruct H as [before [rest [Hs Hm]]].
      exists (String c before), rest. simpl. now rewrite Hs.
Qed.

Lemma search_complete (p : Re.pattern) :
  forall before rest m,
    Re.match_here p [] rest = Some m ->
    exists m', Re.search p (before ++ rest) = Some m'.
Proof.
  induction before as [|c before IH]; intros rest m H.
  - simpl. destruct rest; simpl; rewrite H; eauto.
  - simpl. destruct (Re.match_here p [] (String c (before ++ rest))); eauto.
Qed.

(** What a match of the comparison pattern says about the text, and what
    it captures. *)
Lemma search_compare_sound (content : string) (m : list string) :
  Re.search compare_pattern content = Some m ->
  exists before phrase spaces digits after,
    content = before ++ phrase ++ spaces ++ digits ++ after /\
    PyStr.lower phrase = PyStr.lower marker_phrase /\
    run_of PyStr.isspace spaces /\
    run_of PyStr.isdecimal digits /\
    m = [digits].
Proof.
  intros H. apply search_sound in H. destruct H as [before [rest [Hs Hm]]].
  unfold compare_pattern in Hm. apply match_here_literal in Hm.
  destruct Hm as [phrase [rest1 [Hs1 [Hl Hm]]]].
  cbn [Re.match_here] in Hm. apply match_plus_sound in Hm.
  destruct Hm as [spaces [rest2 [Hs2 [Hsp Hm]]]].
  apply match_plus_sound in Hm.
  destruct Hm as [digits [after [Hs3 [Hd Hm]]]].
  simpl in Hm. inversion Hm.
  exists before, phrase, spaces, digits, after.
  split; [subst; reflexivity|].
  split; [exact Hl|]. split; [exact Hsp|]. split; [exact Hd | reflexivity].
Qed.

Lemma search_compare_complete (content : string) :
  has_marker content -> exists m, Re.search compare_pattern content = Some m.
Proof.
  intros [before [phrase [spaces [digits [after [Hs [Hl [Hsp Hd]]]]]]]].
  assert (Htail : exists m,
             Re.match_here [Re.ClassPlus PyStr.isspace false; Re.ClassPlus PyStr.isdecimal true]
               [] (spaces ++ digits ++ after) = Some m).
  { cbn [Re.match_here].
    destruct (match_plus_complete PyStr.isdecimal
                (fun consumed rest => Re.match_here [] ([] ++ [consumed])%list rest)
                digits "" after [digits] Hd eq_refl) as [m1 Hm1].
    eapply match_plus_complete; [exact Hsp | exact Hm1]. }
  destruct Htail as [m Hm].
  subst content. eapply search_complete.
  unfold compare_pattern. apply match_here_literal.
  exists phrase, (spaces ++ digits ++ after). eauto.
Qed.

Lemma search_compare_iff (content : string) :
  (exists m, Re.search compare_pattern content = Some m) <-> has_marker content.
Proof.
  split.
  - intros [m H]. apply search_compare_sound in H.
    destruct H as [b [p [s [d [a H]]]]]. exists b, p, s, d, a. tauto.
  - apply search_compare_complete.
Qed.

End Matcher.

(** ** Loops *)

(** The nested loops over [os.walk] visit the walked files one by one. *)
Lemma nested_loops_flat {S : Type}
    (step : string -> S -> string * file_data -> S)
    (dirstep : S -> string * list (string * file_data) -> S)
    (w : list (string * list (string * file_data))) :
  (forall st root files, dirstep st (root, files) = fold_left (step root) files st) ->
  forall st,
    fold_left dirstep w st
    = fold_left (fun st rf => step (fst rf) st (snd rf)) (walked_files w) st.
Proof.
  intros Hdir. induction w as [|[root files] w IH]; intros st; [reflexivity|].
  simpl. rewrite fold_left_app, Hdir, IH. f_equal.
  clear IH. revert st. induction files as [|f files IHf]; intros st; simpl; auto.
Qed.

Lemma in_walked_files (w : list (string * list (string * file_data)))
    (root : string) (f : string * file_data) :
  In (root, f) (walked_files w) <-> exists files, In (root, files) w /\ In f files.
Proof.
  unfold walked_files. rewrite in_flat_map. split.
  - intros [[r files] [Hin Hmap]]. simpl in Hmap. apply in_map_iff in Hmap.
    destruct Hmap as [f' [Heq Hf]]. inversion Heq; subst. eauto.
  - intros [files [Hin Hf]]. exists (root, files). split; [exact Hin|].
    simpl. apply in_map_iff. eauto.
Qed.


(** ** Loops that may raise *)

Definition outcome_map {A B : Type} (f : A -> B) (o : outcome A) : outcome B :=
  match o with
  | Returned a => Returned (f a)
  | Raised a => Raised (f a)
  end.

(** A report whose count [int] refuses: with zeros of this length the
    marker is found and the conversion raises. *)
Fixpoint zeros (n : nat) : string :=
  match n with
  | O => EmptyString
  | S n' => String "0" (zeros n')
  end.

Section RaisingLoops.

Context {A B C : Type}.

Lemma for_each_app (body : A -> B -> outcome A) (l1 l2 : list B) :
  forall a,
    for_each body (l1 ++ l2) a
    = match for_each body l1 a with
      | Returned a' => for_each body l2 a'
      | Raised a' => Raised a'
      end.
Proof.
  induction l1 as [|b l1 IH]; intros a; simpl; [reflexivity|].
  destruct (body a b); [apply IH | reflexivity].
Qed.

Lemma for_each_invariant (P : A -> Prop) (body : A -> B -> outcome A) :
  (forall a b, P a -> P (state_of (body a b))) ->
  forall l a, P a -> P (state_of (for_each body l a)).
Proof.
  intros Hstep l. induction l as [|b l IH]; intros a Ha; simpl; [exact Ha|].
  specialize (Hstep a b Ha). destruct (body a b); simpl in Hstep; auto.
Qed.

Lemma for_each_related (R : A -> C -> Prop)
    (f : A -> B -> outcome A) (g : C -> B -> outcome C) :
  (forall a c b, R a c ->
     R (state_of (f a b)) (state_of (g c b)) /\ raised (f a b) = raised (g c b)) ->
  forall l a c, R a c ->
    R (state_of (for_each f l a)) (state_of (for_each g l c)) /\
    raised (for_each f l a) = raised (for_each g l c).
Proof.
  intros Hstep l. induction l as [|b l IH]; intros a c H; simpl; [auto|].
  destruct (Hstep a c b H) as [Hr Hb].
  destruct (f a b), (g c b); simpl in Hr, Hb; try discriminate; auto.
Qed.

Lemma for_each_raised (P : B -> bool) (body : A -> B -> outcome A) :
  (forall a b, raised (body a b) = P b) ->
  forall l a, raised (for_each body l a) = existsb P l.
Proof.
  intros Hstep l. induction l as [|b l IH]; intros a; simpl; [reflexivity|].
  rewrite <- (Hstep a b). destruct (body a b); simpl; [apply IH | reflexivity].
Qed.

End RaisingLoops.

(** The nested loops over [os.walk] visit the walked files one by one
    and end with the first file that raises. *)
Lemma nested_for_each_flat {S : Type}
    (step : string -> S -> string * file_data -> outcome S)
    (dirstep : S -> string * list (string * file_data) -> outcome S)
    (w : list (string * list (string * file_data))) :
  (forall st root files, dirstep st (root, files) = for_each (step root) files st) ->
  forall st,
    for_each dirstep w st
    = for_each (fun st rf => step (fst rf) st (snd rf)) (walked_files w) st.
Proof.
  intros Hdir. induction w as [|[root files] w IH]; intros st; [reflexivity|].
  cbn [for_each walked_files flat_map fst snd]. rewrite for_each_app, Hdir.
  assert (E : forall st0,
             for_each (fun st1 rf => step (fst rf) st1 (snd rf))
               (map (fun f => (root, f)) files) st0
             = for_each (step root) files st0).
  { induction files as [|f files IHf]; intros st0; simpl; [reflexivity|].
    destruct (step root st0 f); [apply IHf | reflexivity]. }
  rewrite E. destruct (for_each (step root) files st); [apply IH | reflexivity].
Qed.

(** ** The comparison classifier, file by file *)

Lemma compare_file_classified (filter_status ext root : string) (st : compare_state)
    (file : string) (fd : file_data) (content : string) (m : list string)
    (unequal : N) :
  filtered_out ext file = false ->
  extract_text file fd = Some content ->
  Re.search compare_pattern content = Some m ->
  PyStr.int (Re.group m 1) = Some unequal ->
  compare_file filter_status ext root st (file, fd)
  = let status := if (unequal =? 0)%N then "Passed" else "Failed" in
    Returned
      (mk_compare_state
         (if (filter_status =? "All") || (filter_status =? status) then
            (c_items st ++
             [mk_item (CompareText file status) (os_path_join root file, None)
                (Some (if status =? "Passed" then "#c6f6c6" else "#f6c6c6"))])%list
          else c_items st)
         (if status =? "Passed" then S (c_passed st) else c_passed st)
         (if status =? "Passed" then c_failed st else S (c_failed st))
         (S (c_total st))).
Proof.
  intros Hf He Hs Hi. unfold compare_file. rewrite Hf, He, Hs, Hi. reflexivity.
Qed.

Lemma compare_file_unclassified (filter_status ext root : string) (st : compare_state)
    (file : string) (fd : file_data) (content : string) :
  filtered_out ext file = false ->
  extract_text file fd = Some content ->
  Re.search compare_pattern content = None ->
  compare_file filter_status ext root st (file, fd) = Returned st.
Proof.
  intros Hf He Hs. unfold compare_file. rewrite Hf, He, Hs. reflexivity.
Qed.

Lemma compare_file_oversized (filter_status ext root : string) (st : compare_state)
    (file : string) (fd : file_data) (content : string) (m : list string) :
  filtered_out ext file = false ->
  extract_text file fd = Some content ->
  Re.search compare_pattern content = Some m ->
  PyStr.int (Re.group m 1) = None ->
  compare_file filter_status ext root st (file, fd) = Raised st.
Proof.
  intros Hf He Hs Hi. unfold compare_file. rewrite Hf, He, Hs, Hi. reflexivity.
Qed.

Lemma compare_file_total (filter_status ext root : string) (st : compare_state)
    (f : string * file_data) :
  c_total st = c_passed st + c_failed st ->
  let st' := state_of (compare_file filter_status ext root st f) in
  c_total st' = c_passed st' + c_failed st'.
Proof.
  intros H. cbv zeta. destruct f as [file fd]. unfold compare_file.
  destruct (filtered_out ext file); [exact H|].
  destruct (extract_text file fd) as [content|]; [|exact H].
  destruct (Re.search compare_pattern content) as [m|]; [|exact H].
  destruct (PyStr.int (Re.group m 1)) as [unequal|]; [|exact H].
  destruct (unequal =? 0)%N; simpl; lia.
Qed.

Lemma compare_file_filtered_view (filter_status ext root : string)
    (st st_all : compare_state) (f : string * file_data) :
  filtered_view filter_status st st_all ->
  filtered_view filter_status
    (state_of (compare_file filter_status ext root st f))
    (state_of (compare_file "All" ext root st_all f)) /\
  raised (compare_file filter_status ext root st f)
  = raised (compare_file "All" ext root st_all f).
Proof.
  intros H. destruct f as [file fd]. unfold compare_file.
  destruct (filtered_out ext file); [split; [exact H | reflexivity]|].
  destruct (extract_text file fd) as [content|]; [|split; [exact H | reflexivity]].
  destruct (Re.search compare_pattern content) as [m|];
    [|split; [exact H | reflexivity]].
  destruct (PyStr.int (Re.group m 1)) as [unequal|];
    [|split; [exact H | reflexivity]].
  split; [|reflexivity].
  destruct H as [Hi [Hp [Hf Ht]]].
  unfold filtered_view.
  destruct (unequal =? 0)%N;
    cbn [state_of c_items c_passed c_failed c_total];
    rewrite ?String.eqb_refl; try change ("Failed" =? "Passed") with false;
    cbn [orb]; rewrite filter_app, <- Hi, Hp, Hf, Ht;
    (split; [|auto]);
    cbn [filter]; unfold shown, item_status; cbn [text];
    destruct ((filter_status =? "All") || _);
    now rewrite ?app_nil_r.
Qed.

Example scenario_B :
  run_compare_check reports_fs (window " /out " "" ".lst" "All")
  = Returned
      (mk_window " /out " "" ".lst" [] NoText " /out " ".lst" "All"
         [mk_item (CompareText "r1.lst" "Passed") ("/out/r1.lst", None) (Some "#c6f6c6");
          mk_item (CompareText "r2.lst" "Failed") ("/out/r2.lst", None) (Some "#f6c6c6")]
         (Scanned 2 1 1)).
Proof. vm_compute. reflexivity. Qed.

Example scenario_C :
  let w := state_of (run_compare_check reports_fs (window "/out" "" ".lst" "Passed")) in
  compare_status w = Scanned 2 1 1 /\
  map text (compare_results w) = [CompareText "r1.lst" "Passed"].
Proof. vm_compute. split; reflexivity. Qed.

Example scenario_all_types :
  let w := state_of (run_compare_check reports_fs (window "/out" "" "All" "All")) in
  compare_status w = Scanned 3 2 1 /\
  map data (compare_results w)
  = [("/out/r1.lst", None); ("/out/r2.lst", None); ("/out/pdf/r3.pdf", None)].
Proof. vm_compute. split; reflexivity. Qed.

Example scenario_A :
  let w := run_text_search project_fs (window "/proj" " error " "All" "All") in
  search_status w = Found 1 3 /\
  search_results w
  = [mk_item (SearchText "a.sas" 2 "ERROR: bad value") ("/proj/a.sas", Some 2) None].
Proof. vm_compute. split; reflexivity. Qed.

(** ** The comparison classifier: claims *)

(** C1. A classified file is Passed when the captured count is 0 and
    Failed otherwise: the status written on the entry, the colour and the
    counter that is incremented all follow from the captured integer
    alone.  A file is classified when the pattern matches its text and
    the captured digits convert to an integer. *)
Theorem status_from_unequal_count
    (filter_status ext root : string) (st : compare_state)
    (file : string) (fd : file_data) (content : string) (m : list string)
    (unequal : N) :
  filtered_out ext file = false ->
  extract_text file fd = Some content ->
  Re.search compare_pattern content = Some m ->
  PyStr.int (Re.group m 1) = Some unequal ->
  exists st' status,
    compare_file filter_status ext root st (file, fd) = Returned st' /\
    (status = "Passed" <-> unequal = 0%N) /\
    (status = "Failed" <-> unequal <> 0%N) /\
    c_items st'
    = (c_items st ++
       if (filter_status =? "All") || (filter_status =? status)
       then [mk_item (CompareText file status) (os_path_join root file, None)
               (Some (if status =? "Passed" then "#c6f6c6" else "#f6c6c6"))]
       else [])%list /\
    (unequal = 0%N -> c_passed st' = S (c_passed st) /\ c_failed st' = c_failed st) /\
    (unequal <> 0%N -> c_failed st' = S (c_failed st) /\ c_passed st' = c_passed st).
Proof.
  intros Hf He Hs Hi.
  rewrite (compare_file_classified _ _ _ _ _ _ _ _ _ Hf He Hs Hi). cbv zeta.
  destruct (N.eqb_spec unequal 0) as [E|E].
  - eexists. exists "Passed". split; [reflexivity|]. cbn [c_items c_passed c_failed].
    split; [tauto|]. split; [split; [discriminate | contradiction]|].
    split; [|split; [auto | contradiction]].
    destruct ((filter_status =? "All") || (filter_status =? "Passed"));
      [reflexivity | now rewrite app_nil_r].
  - eexists. exists "Failed". split; [reflexivity|]. cbn [c_items c_passed c_failed].
    split; [split; [discriminate | contradiction]|]. split; [tauto|].
    split; [|split; [contradiction | auto]].
    destruct ((filter_status =? "All") || (filter_status =? "Failed"));
      [reflexivity | now rewrite app_nil_r].
Qed.

Lemma status_from_unequal_count_witness :
  exists st',
    compare_file "All" ".lst" "/out" (mk_compare_state [] 0 0 0)
      ("r2.lst", text_file (report "3")) = Returned st' /\
    c_failed st' = 1 /\ c_passed st' = 0.
Proof.
  destruct (status_from_unequal_count "All" ".lst" "/out" (mk_compare_state [] 0 0 0)
              "r2.lst" (text_file (report "3")) (report "3") ["3"] 3%N)
    as [st' [status [Hr [_ [_ [_ [_ H]]]]]]];
    [vm_compute; reflexivity | vm_compute; reflexivity | vm_compute; reflexivity
     | vm_compute; reflexivity |].
  exists st'. split; [exact Hr|]. apply H. discriminate.
Defined.

(** A file whose text was extracted and whose captured count converts is
    counted exactly when the text contains, up to letter case, the marker
    phrase followed by whitespace and one or more decimal digits; without
    the phrase the file changes no count and adds no entry. *)
Lemma classified_iff_marker_within_limit
    (filter_status ext root : string) (st : compare_state)
    (file : string) (fd : file_data) (content : string) :
  filtered_out ext file = false ->
  extract_text file fd = Some content ->
  (forall m, Re.search compare_pattern content = Some m ->
             PyStr.int (Re.group m 1) <> None) ->
  exists st',
    compare_file filter_status ext root st (file, fd) = Returned st' /\
    (c_total st' = S (c_total st) <-> has_marker content) /\
    (has_marker content ->
     c_passed st' + c_failed st' = S (c_passed st + c_failed st)) /\
    (~ has_marker content -> st' = st).
Proof.
  intros Hf He Hlim.
  destruct (Re.search compare_pattern content) as [m|] eqn:Hs.
  - assert (Hm : has_marker content) by (apply search_compare_iff; eauto).
    destruct (PyStr.int (Re.group m 1)) as [unequal|] eqn:Hi;
      [|exfalso; exact (Hlim m eq_refl Hi)].
    rewrite (compare_file_classified _ _ _ _ _ _ _ _ _ Hf He Hs Hi). cbv zeta.
    eexists. split; [reflexivity|]. cbn [c_total c_passed c_failed].
    split; [tauto|]. split; [|contradiction].
    intros _. destruct (unequal =? 0)%N; simpl; lia.
  - assert (Hm : ~ has_marker content).
    { intros H. apply search_compare_iff in H. destruct H as [m H]. congruence. }
    rewrite (compare_file_unclassified _ _ _ _ _ _ _ Hf He Hs).
    exists st. split; [reflexivity|].
    split; [|split; [contradiction | reflexivity]].
    split; [lia | contradiction].
Qed.

(** A listing whose count has one digit more than [int] converts. *)
Definition oversized_report : string :=
  marker_phrase ++ " " ++ zeros (S PyStr.max_str_digits).

Definition oversized_fs : filesystem :=
  fun folder =>
    if folder =? "/out" then
      Some (Dir [("r1.lst", text_file (report "0"));
                 ("big.lst", text_file oversized_report);
                 ("r2.lst", text_file (report "3"))] [])
    else None.

(** C2, where the code fails it.  A listing that holds the marker phrase,
    a blank and 4301 zeros is matched by the pattern, yet it is not
    classified: the conversion of the captured digits raises, the
    exception leaves the scan, the files after it are not read and no
    summary is written; the window keeps the entries added so far and its
    old status line. *)
Theorem oversized_count_raises :
  Re.search compare_pattern oversized_report = Some [zeros 4301] /\
  has_marker oversized_report /\
  compare_file "All" "All" "/out" (mk_compare_state [] 0 0 0)
    ("big.lst", text_file oversized_report)
  = Raised (mk_compare_state [] 0 0 0) /\
  run_compare_check oversized_fs (window "/out" "" "All" "All")
  = Raised
      (mk_window "/out" "" "All" [] NoText "/out" "All" "All"
         [mk_item (CompareText "r1.lst" "Passed") ("/out/r1.lst", None) (Some "#c6f6c6")]
         NoText).
Proof.
  assert (Hs : Re.search compare_pattern oversized_report = Some [zeros 4301])
    by (vm_compute; reflexivity).
  split; [exact Hs|]. split; [apply search_compare_iff; eauto|].
  split; vm_compute; reflexivity.
Qed.

(** C3. Whatever the status filter, the scan ends the way it ends under
    "All" (it returns or it raises), the three counts of the summary are
    those of the run under "All", and the entries displayed are the
    entries of that run whose status is the filter (all of them under
    "All"). *)
Theorem status_filter_restricts_display_only
    (fs : filesystem) (self : CompareChecker) :
  let shown_run := run_compare_check fs self in
  let all_run := run_compare_check fs (set_status_filter self "All") in
  raised shown_run = raised all_run /\
  compare_status (state_of shown_run) = compare_status (state_of all_run) /\
  compare_results (state_of shown_run)
  = filter (fun it => (status_filter self =? "All") || (status_filter self =? item_status it))
      (compare_results (state_of all_run)).
Proof.
  cbv zeta. unfold run_compare_check.
  cbn [compare_folder compare_filetype status_filter set_status_filter
       set_compare_results].
  destruct (fs (PyStr.strip (compare_folder self))) as [d|];
    [|repeat split].
  set (w := os_walk _ d).
  rewrite !(nested_for_each_flat (compare_file _ (compare_filetype self)) _ w)
    by (intros; reflexivity).
  destruct (for_each_related (filtered_view (status_filter self))
              (fun st rf => compare_file (status_filter self)
                              (compare_filetype self) (fst rf) st (snd rf))
              (fun st rf => compare_file "All"
                              (compare_filetype self) (fst rf) st (snd rf))
              (fun a c b H => compare_file_filtered_view _ _ _ a c (snd b) H)
              (walked_files w) (mk_compare_state [] 0 0 0) (mk_compare_state [] 0 0 0))
    as [[Hi [Hp [Hf Ht]]] Hr]; [repeat split|].
  destruct (for_each _ (walked_files w) _) as [st|st],
           (for_each _ (walked_files w) _) as [sa|sa];
    simpl in Hi, Hp, Hf, Ht, Hr; try discriminate;
    cbn [raised state_of compare_status compare_results
         set_compare_status set_compare_results];
    rewrite ?Hi, ?Hp, ?Hf, ?Ht; repeat split.
Qed.

(** C10. The summary of a run reports a total that is the sum of the
    passed and the failed counts. *)
Theorem total_is_passed_plus_failed
    (fs : filesystem) (self w : CompareChecker) (total passed failed : nat) :
  run_compare_check fs self = Returned w ->
  compare_status w = Scanned total passed failed ->
  total = passed + failed.
Proof.
  unfold run_compare_check.
  destruct (fs (PyStr.strip (compare_folder self))) as [d|].
  - pose proof (for_each_invariant
                  (fun st => c_total st = c_passed st + c_failed st)
                  (compare_dir (status_filter self) (compare_filetype self))) as Hinv.
    specialize (Hinv
      (fun st rf Hst =>
         match rf with
         | (root, files) =>
             for_each_invariant (fun st => c_total st = c_passed st + c_failed st)
               (compare_file (status_filter self) (compare_filetype self) root)
               (fun a b Ha => compare_file_total _ _ _ a b Ha) files st Hst
         end)
      (os_walk (PyStr.strip (compare_folder self)) d)
      (mk_compare_state [] 0 0 0) eq_refl).
    destruct (for_each _ _ _) as [st|st]; [|discriminate].
    intros Hw Hs. inversion Hw; subst w. clear Hw.
    cbn [compare_status set_compare_status] in Hs. inversion Hs; subst.
    exact Hinv.
  - intros Hw Hs. inversion Hw; subst w. discriminate Hs.
Qed.

Lemma total_is_passed_plus_failed_witness : 3 = 2 + 1.
Proof.
  apply (total_is_passed_plus_failed reports_fs (window "/out" "" "All" "All")
           (state_of (run_compare_check reports_fs (window "/out" "" "All" "All")))).
  - vm_compute. reflexivity.
  - vm_compute. reflexivity.
Defined.




Example text_of_pdf :
  extract_text "r3.pdf" (pdf_file "%PDF-1.7" ["one"; "two"; "three"])
  = Some ("one" ++ nl ++ "two" ++ nl ++ "three").
Proof. reflexivity. Qed.

Example text_of_listing :
  extract_text "r1.lst" (text_file (report "0")) = Some (report "0").
Proof. reflexivity. Qed.

(** The extension filter lowercases the file name, the choice of reader
    does not: an upper-case [.PDF] passes the [.pdf] filter and is then
    read as text. *)
Example upper_case_pdf_read_as_text :
  filtered_out ".pdf" "R3.PDF" = false /\
  extract_text "R3.PDF" (pdf_file "%PDF-1.7" [report "0"]) = Some "%PDF-1.7".
Proof. split; reflexivity. Qed.

(** ** The text search, file by file *)

Lemma search_state_eta (st : search_state) :
  mk_search_state (s_items st ++ [])%list (s_count st + 0) (s_total st + 0) = st.
Proof. destruct st; simpl. now rewrite app_nil_r, !Nat.add_0_r. Qed.

Lemma fold_search_line (search_term file path : string) (ils : list (nat * string)) :
  forall st,
    fold_left (search_line search_term file path) ils st
    = mk_search_state
        (s_items st ++ line_hits search_term file path ils)%list
        (s_count st + List.length (line_hits search_term file path ils))
        (s_total st).
Proof.
  unfold line_hits.
  induction ils as [|[i line] ils IH]; intros st.
  - simpl. rewrite app_nil_r, Nat.add_0_r. now destruct st.
  - cbn [fold_left filter snd]. rewrite IH. unfold search_line.
    destruct (PyStr.str_in search_term (PyStr.lower line)); [|reflexivity].
    cbn [s_items s_count s_total map List.length].
    f_equal; [now rewrite <- app_assoc | simpl; lia].
Qed.

Lemma search_file_eq (search_term ext root : string) (st : search_state)
    (f : string * file_data) :
  search_file search_term ext root st f
  = mk_search_state
      (s_items st ++ file_hits search_term ext (root, f))%list
      (s_count st + List.length (file_hits search_term ext (root, f)))
      (s_total st + if read_by_search ext (fst f) then 1 else 0).
Proof.
  destruct f as [file fd]. unfold search_file, file_hits, read_by_search.
  cbn [fst snd].
  destruct (filtered_out ext file); cbn [negb andb];
    [now rewrite search_state_eta|].
  destruct (searchable file); cbn [negb]; [|now rewrite search_state_eta].
  destruct (as_text fd) as [content|].
  - rewrite fold_search_line. cbn [s_items s_count s_total].
    f_equal. lia.
  - cbn [List.length]. rewrite app_nil_r, Nat.add_0_r. f_equal. lia.
Qed.

Lemma search_loop_eq (search_term ext : string)
    (l : list (string * (string * file_data))) :
  forall st,
    fold_left (fun st rf => search_file search_term ext (fst rf) st (snd rf)) l st
    = mk_search_state
        (s_items st ++ flat_map (file_hits search_term ext) l)%list
        (s_count st + List.length (flat_map (file_hits search_term ext) l))
        (s_total st
         + List.length (filter (fun rf => read_by_search ext (fst (snd rf))) l)).
Proof.
  induction l as [|[root f] l IH]; intros st.
  - simpl. now rewrite search_state_eta.
  - cbn [fold_left flat_map filter fst snd]. rewrite IH, search_file_eq.
    cbn [s_items s_count s_total].
    rewrite <- app_assoc, length_app.
    destruct (read_by_search ext (fst f)); cbn [List.length]; f_equal; lia.
Qed.

(** A run on an existing folder: the list and the status line. *)
Lemma run_text_search_valid (fs : filesystem) (self : CompareChecker) (d : dir) :
  fs (PyStr.strip (search_folder self)) = Some d ->
  let l := walked_files (os_walk (PyStr.strip (search_folder self)) d) in
  let search_term := PyStr.lower (PyStr.strip (search_input self)) in
  let ext := filetype_combo self in
  search_results (run_text_search fs self) = flat_map (file_hits search_term ext) l /\
  search_status (run_text_search fs self)
  = Found (List.length (flat_map (file_hits search_term ext) l))
      (List.length (filter (fun rf => read_by_search ext (fst (snd rf))) l)).
Proof.
  intros Hd. cbv zeta. unfold run_text_search.
  cbn [search_folder search_input filetype_combo set_search_results].
  rewrite Hd.
  cbn [search_results search_status set_search_status set_search_results].
  rewrite (nested_loops_flat (search_file _ (filetype_combo self)))
    by (intros; reflexivity).
  rewrite search_loop_eq. cbn [s_items s_count s_total app Nat.add].
  split; reflexivity.
Qed.

Lemma in_enumerate {A : Type} (xs : list A) :
  forall start i x,
    In (i, x) (PyStr.enumerate xs start) <->
    exists j, i = start + j /\ nth_error xs j = Some x.
Proof.
  induction xs as [|y xs IH]; intros start i x; simpl.
  - split; [contradiction | intros [[|j] [_ H]]; discriminate].
  - rewrite IH. split.
    + intros [H | [j [Hi Hj]]].
      * inversion H; subst. exists 0. split; [lia | reflexivity].
      * exists (S j). split; [lia | exact Hj].
    + intros [[|j] [Hi Hj]].
      * left. simpl in Hj. inversion Hj. f_equal. lia.
      * right. exists j. split; [lia | exact Hj].
Qed.

Lemma searchable_iff (file : string) :
  searchable file = true <-> search_extension file.
Proof.
  unfold searchable, search_extension. cbn [existsb].
  rewrite !orb_true_iff. intuition discriminate.
Qed.

Lemma filtered_out_false_iff (ext file : string) :
  filtered_out ext file = false <->
  ext = "All" \/ PyStr.endswith (PyStr.lower file) ext = true.
Proof.
  unfold filtered_out. destruct (String.eqb_spec ext "All") as [E|E]; cbn [negb andb].
  - tauto.
  - destruct (PyStr.endswith (PyStr.lower file) ext); cbn [negb]; intuition discriminate.
Qed.

Lemma read_by_search_iff (ext file : string) :
  read_by_search ext file = true <->
  search_extension file /\
  (ext = "All" \/ PyStr.endswith (PyStr.lower file) ext = true).
Proof.
  unfold read_by_search. rewrite andb_true_iff, negb_true_iff.
  rewrite filtered_out_false_iff, searchable_iff. tauto.
Qed.

(** ** The text search: claims *)

(** C4. In a run on an existing folder, the entries of the result list
    are exactly the lines of the files read whose lowercase contains the
    lowercase of the (trimmed) search term; the entry of a line carries
    the file's path, the line's number counted from 1 and the line with
    the whitespace around it removed. *)
Theorem line_matches_iff_lowercase_contains
    (fs : filesystem) (self : CompareChecker) (d : dir) :
  let folder := PyStr.strip (search_folder self) in
  let term := PyStr.strip (search_input self) in
  let ext := filetype_combo self in
  fs folder = Some d ->
  forall it,
    In it (search_results (run_text_search fs self)) <->
    exists root files file fd content i line,
      In (root, files) (os_walk folder d) /\
      In (file, fd) files /\
      filtered_out ext file = false /\ searchable file = true /\
      as_text fd = Some content /\
      nth_error (PyStr.readlines content) i = Some line /\
      contains (PyStr.lower line) (PyStr.lower term) /\
      it = mk_item (SearchText file (S i) (PyStr.strip line))
             (os_path_join root file, Some (S i)) None.
Proof.
  cbv zeta. intros Hd it.
  destruct (run_text_search_valid fs self d Hd) as [Hres _]. rewrite Hres.
  rewrite in_flat_map. split.
  - intros [[root [file fd]] [Hw Hit]].
    apply in_walked_files in Hw. destruct Hw as [files [Hroot Hfile]].
    unfold file_hits in Hit. cbn [fst snd] in Hit.
    unfold read_by_search in Hit.
    destruct (filtered_out (filetype_combo self) file) eqn:Hf; [contradiction|].
    destruct (searchable file) eqn:Hs; [|contradiction].
    cbn [negb andb] in Hit.
    destruct (as_text fd) as [content|] eqn:Ht; [|contradiction].
    unfold line_hits in Hit. apply in_map_iff in Hit.
    destruct Hit as [[i line] [Heq Hin]]. apply filter_In in Hin.
    destruct Hin as [Hin Hterm]. apply in_enumerate in Hin.
    destruct Hin as [j [Hi Hj]]. cbn [snd] in Hterm.
    apply str_in_iff in Hterm.
    exists root, files, file, fd, content, j, line.
    subst i. unfold hit_entry in Heq. cbn [fst snd] in Heq.
    repeat split; auto.
  - intros [root [files [file [fd [content [i [line
       [Hroot [Hfile [Hf [Hs [Ht [Hi [Hterm Heq]]]]]]]]]]]]]].
    exists (root, (file, fd)). split.
    + apply in_walked_files. eauto.
    + unfold file_hits, read_by_search. cbn [fst snd].
      rewrite Hf, Hs, Ht. cbn [negb andb].
      unfold line_hits. apply in_map_iff. exists (S i, line). split.
      * subst it. reflexivity.
      * apply filter_In. split.
        -- apply in_enumerate. exists i. split; [reflexivity | exact Hi].
        -- cbn [snd]. apply str_in_iff. exact Hterm.
Qed.

Lemma line_matches_iff_lowercase_contains_witness :
  In (mk_item (SearchText "a.sas" 2 "ERROR: bad value") ("/proj/a.sas", Some 2) None)
     (search_results (run_text_search project_fs (window "/proj" " Error" ".sas" "All"))).
Proof.
  apply (line_matches_iff_lowercase_contains project_fs
           (window "/proj" " Error" ".sas" "All")
           (Dir [("a.sas", text_file ("data x;" ++ nl ++ "  ERROR: bad value " ++ nl ++ "run;"));
                 ("b.LOG", text_file ("NOTE: ok" ++ nl));
                 ("c.pdf", pdf_file "%PDF-1.7" ["error"]);
                 ("locked.txt", unreadable_file)] [])
           eq_refl).
  exists "/proj",
    [("a.sas", text_file ("data x;" ++ nl ++ "  ERROR: bad value " ++ nl ++ "run;"));
     ("b.LOG", text_file ("NOTE: ok" ++ nl));
     ("c.pdf", pdf_file "%PDF-1.7" ["error"]);
     ("locked.txt", unreadable_file)],
    "a.sas", (text_file ("data x;" ++ nl ++ "  ERROR: bad value " ++ nl ++ "run;")),
    ("data x;" ++ nl ++ "  ERROR: bad value " ++ nl ++ "run;"), 1,
    ("  ERROR: bad value " ++ nl).
  split; [left; reflexivity|]. split; [left; reflexivity|].
  split; [reflexivity|]. split; [reflexivity|]. split; [reflexivity|].
  split; [reflexivity|]. split; [|reflexivity].
  exists "  ", (": bad value " ++ nl). reflexivity.
Defined.

(** C5. Whatever the extension filter, the search reads (and counts) a
    file exactly when its lowercased name ends with [.sas], [.txt] or
    [.log] and the filter is "All" or the lowercased name ends with the
    filter; a file without one of the three extensions leaves the scan as
    it was, and a file "All" passes over is passed over under every
    filter. *)
Theorem search_reads_three_extensions_only
    (search_term ext root : string) (st : search_state)
    (file : string) (fd : file_data) :
  let st' := search_file search_term ext root st (file, fd) in
  (s_total st' = S (s_total st) <->
   search_extension file /\
   (ext = "All" \/ PyStr.endswith (PyStr.lower file) ext = true)) /\
  (~ search_extension file -> st' = st) /\
  (search_file search_term "All" root st (file, fd) = st -> st' = st).
Proof.
  cbv zeta.
  assert (Hskip : forall e, read_by_search e file = false ->
                            search_file search_term e root st (file, fd) = st).
  { intros e He. unfold read_by_search in He. unfold search_file.
    destruct (filtered_out e file); [reflexivity|].
    cbn [negb andb] in He. now rewrite He. }
  assert (Hcount : forall e, read_by_search e file = true ->
                             s_total (search_file search_term e root st (file, fd))
                             = S (s_total st)).
  { intros e He. rewrite search_file_eq. cbn [s_total fst]. rewrite He. lia. }
  split; [|split].
  - rewrite <- read_by_search_iff.
    destruct (read_by_search ext file) eqn:He.
    + rewrite (Hcount _ He). tauto.
    + rewrite (Hskip _ He). split; [lia | discriminate].
  - intros Hn. apply Hskip.
    destruct (read_by_search ext file) eqn:He; [|reflexivity].
    apply read_by_search_iff in He. tauto.
  - intros Hall. apply Hskip.
    destruct (read_by_search ext file) eqn:He; [|reflexivity].
    apply read_by_search_iff in He. destruct He as [Hext _].
    assert (Ha : read_by_search "All" file = true)
      by (apply read_by_search_iff; auto).
    apply Hcount in Ha. rewrite Hall in Ha. lia.
Qed.

Example search_extension_examples :
  read_by_search "All" "Report.TXT" = true /\
  read_by_search "All" "r1.lst" = false /\
  read_by_search ".log" "a.sas" = false /\
  read_by_search ".pdf" "c.pdf" = false.
Proof. repeat split; reflexivity. Qed.

(** C6, as the code has it.  A file that passes the extension tests and
    cannot be opened adds no entry and no match, the scan goes on with the
    files after it, and the file is counted among the files scanned: the
    counter is incremented before the file is opened. *)
Theorem unopenable_file_skipped_and_counted
    (search_term ext root : string) (st : search_state)
    (file : string) (fd : file_data) (rest : list (string * file_data)) :
  filtered_out ext file = false ->
  searchable file = true ->
  as_text fd = None ->
  let st' := mk_search_state (s_items st) (s_count st) (S (s_total st)) in
  search_file search_term ext root st (file, fd) = st' /\
  fold_left (search_file search_term ext root) ((file, fd) :: rest) st
  = fold_left (search_file search_term ext root) rest st'.
Proof.
  intros Hf Hs Ht. cbv zeta.
  assert (H : search_file search_term ext root st (file, fd)
              = mk_search_state (s_items st) (s_count st) (S (s_total st))).
  { unfold search_file. now rewrite Hf, Hs, Ht. }
  split; [exact H|]. cbn [fold_left]. now rewrite H.
Qed.

Lemma unopenable_file_skipped_and_counted_witness :
  search_file "error" "All" "/proj" (mk_search_state [] 0 2) ("locked.txt", unreadable_file)
  = mk_search_state [] 0 3.
Proof.
  apply (unopenable_file_skipped_and_counted "error" "All" "/proj"
           (mk_search_state [] 0 2) "locked.txt" unreadable_file []);
    reflexivity.
Defined.

(** C6, as the claim has it, fails: in a folder whose only file cannot be
    opened the summary reads "Found 0 matches in 1 file(s)". *)
Lemma unopenable_file_is_counted :
  let fs : filesystem :=
    fun folder => if folder =? "/proj" then Some (Dir [("locked.txt", unreadable_file)] [])
                  else None in
  let w := run_text_search fs (window "/proj" "error" "All" "All") in
  search_results w = [] /\ search_status w = Found 0 1 /\ search_status w <> Found 0 0.
Proof.
  cbv zeta. vm_compute.
  split; [reflexivity | split; [reflexivity | discriminate]].
Qed.

(** C8. When the folder typed in is not an existing directory, either
    scan stops at once and returns without raising: the result list is
    left empty, the status line shows the invalid-folder warning and
    nothing else changes. *)
Theorem invalid_folder_aborts (fs : filesystem) (self : CompareChecker) :
  (fs (PyStr.strip (search_folder self)) = None ->
   search_results (run_text_search fs self) = [] /\
   search_status (run_text_search fs self) = InvalidFolder /\
   run_text_search fs self = set_search_status (set_search_results self []) InvalidFolder) /\
  (fs (PyStr.strip (compare_folder self)) = None ->
   compare_results (state_of (run_compare_check fs self)) = [] /\
   compare_status (state_of (run_compare_check fs self)) = InvalidFolder /\
   run_compare_check fs self
   = Returned (set_compare_status (set_compare_results self []) InvalidFolder)).
Proof.
  split; intros H.
  - unfold run_text_search. cbn [search_folder set_search_results]. rewrite H.
    repeat split.
  - unfold run_compare_check. cbn [compare_folder set_compare_results]. rewrite H.
    repeat split.
Qed.

Lemma invalid_folder_aborts_witness :
  search_status (run_text_search project_fs (window "/nowhere" "error" "All" "All"))
  = InvalidFolder /\
  compare_status (state_of (run_compare_check reports_fs (window "/proj" "" "All" "All")))
  = InvalidFolder.
Proof.
  split.
  - apply (proj1 (invalid_folder_aborts project_fs (window "/nowhere" "error" "All" "All"))).
    reflexivity.
  - apply (proj2 (invalid_folder_aborts reports_fs (window "/proj" "" "All" "All"))).
    reflexivity.
Defined.

(** C9. When the search input is empty or trims to empty, a run on an
    existing folder lists every line of every file it reads, in order:
    nothing is filtered by the term. *)
Theorem empty_term_matches_every_line
    (fs : filesystem) (self : CompareChecker) (d : dir) :
  PyStr.strip (search_input self) = "" ->
  fs (PyStr.strip (search_folder self)) = Some d ->
  search_results (run_text_search fs self)
  = flat_map (all_lines (filetype_combo self))
      (walked_files (os_walk (PyStr.strip (search_folder self)) d)).
Proof.
  intros He Hd.
  destruct (run_text_search_valid fs self d Hd) as [Hres _]. rewrite Hres, He.
  apply flat_map_ext. intros rf. unfold file_hits, all_lines, line_hits.
  destruct (read_by_search _ _); [|reflexivity].
  destruct (as_text _); [|reflexivity].
  f_equal. apply forallb_filter_id. apply forallb_forall.
  intros il _. apply str_in_empty.
Qed.

Lemma empty_term_matches_every_line_witness :
  map text (search_results (run_text_search project_fs (window "/proj" "   " ".sas" "All")))
  = [SearchText "a.sas" 1 "data x;";
     SearchText "a.sas" 2 "ERROR: bad value";
     SearchText "a.sas" 3 "run;"].
Proof.
  rewrite (empty_term_matches_every_line project_fs (window "/proj" "   " ".sas" "All")
             (Dir [("a.sas", text_file ("data x;" ++ nl ++ "  ERROR: bad value " ++ nl ++ "run;"));
                   ("b.LOG", text_file ("NOTE: ok" ++ nl));
                   ("c.pdf", pdf_file "%PDF-1.7" ["error"]);
                   ("locked.txt", unreadable_file)] [])
             eq_refl eq_refl).
  reflexivity.
Defined.

Lemma search_reads_three_extensions_only_witness :
  search_file "error" ".txt" "/proj" (mk_search_state [] 0 0)
    ("c.pdf", pdf_file "%PDF-1.7" ["error"])
  = mk_search_state [] 0 0.
Proof.
  apply (proj1 (proj2 (search_reads_three_extensions_only "error" ".txt" "/proj"
                         (mk_search_state [] 0 0) "c.pdf" (pdf_file "%PDF-1.7" ["error"])))).
  unfold search_extension. vm_compute. intros [H | [H | H]]; discriminate.
Defined.

(** * Further properties of the two scans *)

(** ** More about strings *)

Fixpoint last_char (s : string) : option ascii :=
  match s with
  | EmptyString => None
  | String c EmptyString => Some c
  | String _ s' => last_char s'
  end.

Definition first_char (s : string) : option ascii :=
  match s with
  | EmptyString => None
  | String c _ => Some c
  end.

(** [s] has no whitespace at either end. *)
Definition trimmed (s : string) : Prop :=
  (forall c, first_char s = Some c -> PyStr.isspace c = false) /\
  (forall c, last_char s = Some c -> PyStr.isspace c = false).

Section CaseAndSpace.

Lemma lower_char_idem (c : ascii) :
  PyStr.lower_char (PyStr.lower_char c) = PyStr.lower_char c.
Proof. destruct c as [[] [] [] [] [] [] [] []]; reflexivity. Qed.

Lemma isspace_lower_char (c : ascii) :
  PyStr.isspace (PyStr.lower_char c) = PyStr.isspace c.
Proof. destruct c as [[] [] [] [] [] [] [] []]; reflexivity. Qed.

Lemma lower_idem (s : string) : PyStr.lower (PyStr.lower s) = PyStr.lower s.
Proof.
  induction s as [|c s IH]; simpl; [reflexivity|].
  now rewrite lower_char_idem, IH.
Qed.

Lemma lstrip_lower (s : string) :
  PyStr.lstrip (PyStr.lower s) = PyStr.lower (PyStr.lstrip s).
Proof.
  induction s as [|c s IH]; simpl; [reflexivity|].
  rewrite isspace_lower_char. destruct (PyStr.isspace c); [exact IH | reflexivity].
Qed.

Lemma rstrip_lower (s : string) :
  PyStr.rstrip (PyStr.lower s) = PyStr.lower (PyStr.rstrip s).
Proof.
  induction s as [|c s IH]; simpl; [reflexivity|].
  rewrite IH, isspace_lower_char.
  destruct (PyStr.rstrip s); simpl; [destruct (PyStr.isspace c)|]; reflexivity.
Qed.

Lemma strip_lower (s : string) :
  PyStr.strip (PyStr.lower s) = PyStr.lower (PyStr.strip s).
Proof. unfold PyStr.strip. now rewrite lstrip_lower, rstrip_lower. Qed.

Lemma lstrip_first (s : string) (c : ascii) :
  first_char (PyStr.lstrip s) = Some c -> PyStr.isspace c = false.
Proof.
  induction s as [|d s IH]; simpl; [discriminate|].
  destruct (PyStr.isspace d) eqn:E; [exact IH|].
  simpl. intros H. inversion H. now subst.
Qed.

Lemma lstrip_fixed (s : string) :
  (forall c, first_char s = Some c -> PyStr.isspace c = false) ->
  PyStr.lstrip s = s.
Proof.
  destruct s as [|d s]; simpl; [reflexivity|].
  intros H. now rewrite (H d eq_refl).
Qed.

Lemma rstrip_first (s : string) (c : ascii) :
  (forall d, first_char s = Some d -> PyStr.isspace d = false) ->
  first_char (PyStr.rstrip s) = Some c -> PyStr.isspace c = false.
Proof.
  destruct s as [|d s]; simpl; [discriminate|].
  intros H. rewrite (H d eq_refl).
  destruct (PyStr.rstrip s); simpl; intros E; inversion E; subst; auto.
Qed.

Lemma rstrip_last (s : string) (c : ascii) :
  last_char (PyStr.rstrip s) = Some c -> PyStr.isspace c = false.
Proof.
  induction s as [|d s IH]; simpl; [discriminate|].
  destruct (PyStr.rstrip s) as [|e r] eqn:E.
  - destruct (PyStr.isspace d) eqn:Ed; simpl; [discriminate|].
    intros H. inversion H. now subst.
  - exact IH.
Qed.

Lemma rstrip_idem (s : string) : PyStr.rstrip (PyStr.rstrip s) = PyStr.rstrip s.
Proof.
  induction s as [|d s IH]; simpl; [reflexivity|].
  destruct (PyStr.rstrip s) as [|e r] eqn:E.
  - destruct (PyStr.isspace d) eqn:Ed; simpl; [reflexivity | now rewrite Ed].
  - change (PyStr.rstrip (String d (String e r)))
      with (match PyStr.rstrip (String e r) with
            | EmptyString => if PyStr.isspace d then EmptyString else String d EmptyString
            | x => String d x
            end).
    now rewrite IH.
Qed.

Lemma strip_trimmed (s : string) : trimmed (PyStr.strip s).
Proof.
  unfold trimmed, PyStr.strip. split; intros c.
  - apply rstrip_first. intros d. apply lstrip_first.
  - apply rstrip_last.
Qed.

Lemma strip_fixed (s : string) : trimmed s -> PyStr.strip s = s.
Proof.
  intros [Hf Hl]. unfold PyStr.strip. rewrite (lstrip_fixed s Hf).
  clear Hf. induction s as [|d s IH]; simpl; [reflexivity|].
  destruct s as [|e s].
  - simpl. now rewrite (Hl d eq_refl).
  - rewrite IH; [reflexivity|]. intros c H. apply Hl. exact H.
Qed.

Lemma strip_idem (s : string) : PyStr.strip (PyStr.strip s) = PyStr.strip s.
Proof. apply strip_fixed, strip_trimmed. Qed.

End CaseAndSpace.

(** ** The text search as a whole *)

(** What the user types in the search box and picks in the file-type box. *)
Definition set_search_input (self : CompareChecker) (s : string) : CompareChecker :=
  mk_window (search_folder self) s (filetype_combo self)
    (search_results self) (search_status self)
    (compare_folder self) (compare_filetype self) (status_filter self)
    (compare_results self) (compare_status self).

Definition set_filetype_combo (self : CompareChecker) (ext : string) : CompareChecker :=
  mk_window (search_folder self) (search_input self) ext
    (search_results self) (search_status self)
    (compare_folder self) (compare_filetype self) (status_filter self)
    (compare_results self) (compare_status self).

(** The file an entry is about. *)
Definition entry_file (it : QListWidgetItem) : string :=
  match text it with
  | SearchText file _ _ => file
  | CompareText file _ => file
  end.

(** X1. After a search of an existing folder the status line reports as
    matches the number of entries in the result list, and as files the
    number of walked files that pass the two extension tests. *)
Theorem search_summary_counts (fs : filesystem) (self : CompareChecker) (d : dir) :
  fs (PyStr.strip (search_folder self)) = Some d ->
  search_status (run_text_search fs self)
  = Found (List.length (search_results (run_text_search fs self)))
      (List.length
         (filter (fun rf => read_by_search (filetype_combo self) (fst (snd rf)))
            (walked_files (os_walk (PyStr.strip (search_folder self)) d)))).
Proof.
  intros Hd. destruct (run_text_search_valid fs self d Hd) as [Hres Hst].
  now rewrite Hst, Hres.
Qed.

Lemma search_summary_counts_witness :
  search_status (run_text_search project_fs (window "/proj" "o" "All" "All"))
  = Found 2 3.
Proof.
  rewrite (search_summary_counts project_fs (window "/proj" "o" "All" "All")
             (Dir [("a.sas", text_file ("data x;" ++ nl ++ "  ERROR: bad value " ++ nl ++ "run;"));
                   ("b.LOG", text_file ("NOTE: ok" ++ nl));
                   ("c.pdf", pdf_file "%PDF-1.7" ["error"]);
                   ("locked.txt", unreadable_file)] [])
             eq_refl).
  reflexivity.
Defined.

(** X2. A search starts from an empty list: what the result list and the
    status line held before has no effect on the outcome, so searching
    again without changing the inputs gives the same window, and entries
    never pile up from one search to the next. *)
Theorem search_starts_afresh (fs : filesystem) (self : CompareChecker)
    (old : list QListWidgetItem) (status : label_text) :
  run_text_search fs (set_search_status (set_search_results self old) status)
  = run_text_search fs self /\
  run_text_search fs (run_text_search fs self) = run_text_search fs self.
Proof.
  assert (H : forall l t,
             run_text_search fs (set_search_status (set_search_results self l) t)
             = run_text_search fs self).
  { intros l t. unfold run_text_search.
    cbn [search_folder search_input filetype_combo set_search_status set_search_results].
    destruct (fs (PyStr.strip (search_folder self))); reflexivity. }
  split; [apply H|].
  assert (E : exists l t,
             run_text_search fs self = set_search_status (set_search_results self l) t).
  { unfold run_text_search.
    destruct (fs (PyStr.strip (search_folder self))); eexists; eexists; reflexivity. }
  destruct E as [l [t E]].
  transitivity (run_text_search fs (set_search_status (set_search_results self l) t));
    [now rewrite E | apply H].
Qed.

(** X3. The search does not see the letter case of what was typed nor
    the whitespace around it: typing the lowercased or the trimmed input
    gives the same result list and the same status line. *)
Theorem search_input_case_and_space (fs : filesystem) (self : CompareChecker) :
  let typed := search_input self in
  let out := run_text_search fs self in
  let out_lower := run_text_search fs (set_search_input self (PyStr.lower typed)) in
  let out_strip := run_text_search fs (set_search_input self (PyStr.strip typed)) in
  search_results out_lower = search_results out /\
  search_status out_lower = search_status out /\
  search_results out_strip = search_results out /\
  search_status out_strip = search_status out.
Proof.
  cbv zeta. unfold run_text_search.
  cbn [search_folder search_input filetype_combo set_search_input set_search_results].
  rewrite strip_lower, lower_idem, strip_idem.
  destruct (fs (PyStr.strip (search_folder self))); repeat split.
Qed.

Example search_input_case_and_space_example :
  search_results (run_text_search project_fs (window "/proj" " eRRor " "All" "All"))
  = search_results (run_text_search project_fs (window "/proj" "error" "All" "All")).
Proof. reflexivity. Qed.

Lemma filter_flat_map {A B : Type} (P : B -> bool) (f : A -> list B) (l : list A) :
  filter P (flat_map f l) = flat_map (fun x => filter P (f x)) l.
Proof.
  induction l as [|x l IH]; simpl; [reflexivity|].
  now rewrite filter_app, IH.
Qed.

Lemma filter_uniform {A : Type} (P : A -> bool) (b : bool) (l : list A) :
  (forall x, In x l -> P x = b) ->
  filter P l = if b then l else [].
Proof.
  induction l as [|x l IH]; intros H; simpl.
  - now destruct b.
  - rewrite (H x (or_introl eq_refl)), IH by (intros y Hy; apply H; now right).
    now destruct b.
Qed.

Lemma file_hits_entry_file (search_term ext : string)
    (rf : string * (string * file_data)) (it : QListWidgetItem) :
  In it (file_hits search_term ext rf) -> entry_file it = fst (snd rf).
Proof.
  unfold file_hits, line_hits.
  destruct (read_by_search ext (fst (snd rf))); [|contradiction].
  destruct (as_text (snd (snd rf))); [|contradiction].
  intros H. apply in_map_iff in H. destruct H as [il [H _]]. now subst it.
Qed.

(** X4. A file-type filter other than "All" only narrows the search: its
    result list is the result list under "All" restricted to the entries
    of files whose lowercased name ends with the filter, in the same
    order. *)
Theorem search_filter_narrows_all (fs : filesystem) (self : CompareChecker) :
  filetype_combo self <> "All" ->
  search_results (run_text_search fs self)
  = filter (fun it => PyStr.endswith (PyStr.lower (entry_file it)) (filetype_combo self))
      (search_results (run_text_search fs (set_filetype_combo self "All"))).
Proof.
  intros Hext.
  destruct (fs (PyStr.strip (search_folder self))) as [d|] eqn:Hd.
  - destruct (run_text_search_valid fs self d Hd) as [Hres _].
    destruct (run_text_search_valid fs (set_filetype_combo self "All") d Hd) as [Hall _].
    rewrite Hres, Hall.
    cbn [search_folder search_input filetype_combo set_filetype_combo].
    rewrite filter_flat_map. apply flat_map_ext. intros rf.
    rewrite (filter_uniform _
               (PyStr.endswith (PyStr.lower (fst (snd rf))) (filetype_combo self))).
    + unfold file_hits, read_by_search, filtered_out.
      apply String.eqb_neq in Hext. rewrite Hext. cbn [negb andb String.eqb].
      rewrite negb_involutive.
      destruct (PyStr.endswith (PyStr.lower (fst (snd rf))) (filetype_combo self));
        reflexivity.
    + intros it Hit. now rewrite (file_hits_entry_file _ _ _ _ Hit).
  - unfold run_text_search.
    cbn [search_folder search_input filetype_combo set_filetype_combo set_search_results].
    rewrite Hd. reflexivity.
Qed.

Lemma search_filter_narrows_all_witness :
  map entry_file
    (search_results (run_text_search project_fs (window "/proj" "o" ".log" "All")))
  = ["b.LOG"].
Proof.
  rewrite (search_filter_narrows_all project_fs (window "/proj" "o" ".log" "All"));
    [reflexivity | discriminate].
Defined.

(** X5. Every entry of the result list of a search carries a line number
    of at least 1, both in its text and in its stored data, shows the line
    without whitespace at either end, and has no background colour. *)
Theorem search_entries_well_formed (fs : filesystem) (self : CompareChecker)
    (it : QListWidgetItem) :
  In it (search_results (run_text_search fs self)) ->
  exists file path i shown_line,
    text it = SearchText file i shown_line /\
    data it = (path, Some i) /\
    1 <= i /\
    trimmed shown_line /\
    background it = None.
Proof.
  destruct (fs (PyStr.strip (search_folder self))) as [d|] eqn:Hd.
  - destruct (run_text_search_valid fs self d Hd) as [Hres _]. rewrite Hres.
    intros H. apply in_flat_map in H. destruct H as [[root [file fd]] [_ H]].
    unfold file_hits, line_hits in H. cbn [fst snd] in H.
    destruct (read_by_search (filetype_combo self) file); [|contradiction].
    destruct (as_text fd) as [content|]; [|contradiction].
    apply in_map_iff in H. destruct H as [[i line] [Heq H]].
    apply filter_In in H. destruct H as [H _].
    apply in_enumerate in H. destruct H as [j [Hi _]].
    exists file, (os_path_join root file), i, (PyStr.strip line).
    subst it. unfold hit_entry. cbn [text data background fst snd].
    repeat split; try apply strip_trimmed. lia.
  - unfold run_text_search. cbn [search_folder set_search_results]. rewrite Hd.
    cbn. contradiction.
Qed.

Lemma search_entries_well_formed_witness :
  exists file path i shown_line,
    text (mk_item (SearchText "a.sas" 2 "ERROR: bad value") ("/proj/a.sas", Some 2) None)
    = SearchText file i shown_line /\
    data (mk_item (SearchText "a.sas" 2 "ERROR: bad value") ("/proj/a.sas", Some 2) None)
    = (path, Some i) /\
    1 <= i /\ trimmed shown_line /\
    background (mk_item (SearchText "a.sas" 2 "ERROR: bad value") ("/proj/a.sas", Some 2) None)
    = None.
Proof.
  apply (search_entries_well_formed project_fs (window "/proj" "error" "All" "All")).
  left. reflexivity.
Defined.

Section TrailingSpace.

Variable c : ascii.
Hypothesis c_space : PyStr.isspace c = true.

Lemma rstrip_trailing_space (s : string) :
  PyStr.rstrip (s ++ String c "") = PyStr.rstrip s.
Proof.
  induction s as [|d s IH]; simpl.
  - now rewrite c_space.
  - now rewrite IH.
Qed.

Lemma strip_trailing_space (s : string) :
  PyStr.strip (s ++ String c "") = PyStr.strip s.
Proof.
  unfold PyStr.strip. induction s as [|d s IH]; simpl.
  - now rewrite c_space.
  - destruct (PyStr.isspace d); [exact IH|].
    apply (rstrip_trailing_space (String d s)).
Qed.

Lemma prefix_trailing_space (t : string) :
  (forall e, last_char t = Some e -> PyStr.isspace e = false) ->
  forall s, prefix t (s ++ String c "") = prefix t s.
Proof.
  induction t as [|a t IH]; intros Hlast s.
  - now destruct s.
  - destruct s as [|b s]; simpl.
    + destruct (ascii_dec a c) as [->|Hne]; [|reflexivity].
      destruct t as [|a' t]; [|reflexivity].
      specialize (Hlast c eq_refl). congruence.
    + destruct (ascii_dec a b) as [Eab|Nab]; [|reflexivity].
      destruct t as [|a' t]; [now destruct s|].
      apply IH. intros e He. apply Hlast. exact He.
Qed.

Lemma str_in_trailing_space (t : string) :
  (forall e, last_char t = Some e -> PyStr.isspace e = false) ->
  forall s, PyStr.str_in t (s ++ String c "") = PyStr.str_in t s.
Proof.
  intros Hlast s. induction s as [|b s IH].
  - change ("" ++ String c "") with (String c "").
    rewrite str_in_cons, !str_in_nil.
    rewrite <- (prefix_trailing_space t Hlast "").
    change ("" ++ String c "") with (String c "").
    now destruct (prefix t (String c "")).
  - change (String b s ++ String c "") with (String b (s ++ String c "")).
    rewrite !str_in_cons, IH.
    now rewrite <- (prefix_trailing_space t Hlast (String b s)).
Qed.

End TrailingSpace.

Lemma lower_last_char (s : string) (e : ascii) :
  last_char (PyStr.lower s) = Some e ->
  exists e0, last_char s = Some e0 /\ e = PyStr.lower_char e0.
Proof.
  induction s as [|a s IH]; simpl; [discriminate|].
  destruct s as [|b s]; simpl in *.
  - intros H. inversion H. eauto.
  - exact IH.
Qed.

(** X6. The newline that ends a line plays no part in the search: for
    the term the search derives from any input, a line with its newline
    and the same line without it give the same hit or miss and the same
    entry.  So it makes no difference whether the last line of a file is
    terminated. *)
Theorem line_terminator_is_ignored
    (typed file path : string) (st : search_state) (i : nat) (line : string) :
  let search_term := PyStr.lower (PyStr.strip typed) in
  search_line search_term file path st (i, line ++ nl)
  = search_line search_term file path st (i, line).
Proof.
  cbv zeta. unfold search_line, nl.
  rewrite lower_append. change (PyStr.lower (String PyStr.newline ""))
    with (String PyStr.newline "").
  rewrite (str_in_trailing_space PyStr.newline eq_refl), (strip_trailing_space PyStr.newline eq_refl).
  - reflexivity.
  - intros e He. apply lower_last_char in He. destruct He as [e0 [He0 ->]].
    rewrite isspace_lower_char. now apply (proj2 (strip_trimmed typed)).
Qed.

Example unterminated_last_line :
  search_results (run_text_search
    (fun folder => if folder =? "/p" then Some (Dir [("a.txt", text_file ("x" ++ nl ++ "end"))] []) else None)
    (window "/p" "end" "All" "All"))
  = search_results (run_text_search
    (fun folder => if folder =? "/p" then Some (Dir [("a.txt", text_file ("x" ++ nl ++ "end" ++ nl))] []) else None)
    (window "/p" "end" "All" "All")).
Proof. reflexivity. Qed.

(** ** The comparison classifier as a whole *)

(** The counter a status filter selects. *)
Definition counter_shown (filter_status : string) (st : compare_state) : nat :=
  if filter_status =? "All" then c_total st
  else if filter_status =? "Passed" then c_passed st
  else if filter_status =? "Failed" then c_failed st
  else 0.

(** An entry of the comparison list as the classifier builds it. *)
Definition compare_entry_ok (filter_status : string) (it : QListWidgetItem) : Prop :=
  exists file status path,
    text it = CompareText file status /\
    data it = (path, None) /\
    (status = "Passed" /\ background it = Some "#c6f6c6" \/
     status = "Failed" /\ background it = Some "#f6c6c6") /\
    (filter_status = "All" \/ filter_status = status).

Lemma compare_file_counter_shown (filter_status ext root : string)
    (st : compare_state) (f : string * file_data) :
  c_total st = c_passed st + c_failed st ->
  List.length (c_items st) = counter_shown filter_status st ->
  let st' := state_of (compare_file filter_status ext root st f) in
  List.length (c_items st') = counter_shown filter_status st'.
Proof.
  intros Ht H. cbv zeta. destruct f as [file fd]. unfold compare_file.
  destruct (filtered_out ext file); [exact H|].
  destruct (extract_text file fd) as [content|]; [|exact H].
  destruct (Re.search compare_pattern content) as [m|]; [|exact H].
  destruct (PyStr.int (Re.group m 1)) as [unequal|]; [|exact H].
  unfold counter_shown in *.
  destruct (unequal =? 0)%N;
    cbn [state_of c_items c_passed c_failed c_total];
    rewrite ?String.eqb_refl; try change ("Failed" =? "Passed") with false;
    destruct (String.eqb_spec filter_status "All") as [Ea|Ea]; cbn [orb];
    rewrite ?length_app; cbn [List.length]; try lia;
    destruct (String.eqb_spec filter_status "Passed") as [Ep|Ep];
    rewrite ?length_app; cbn [List.length]; try lia;
    destruct (String.eqb_spec filter_status "Failed") as [Ef|Ef];
    rewrite ?length_app; cbn [List.length]; try lia;
    subst; discriminate.
Qed.

Lemma compare_file_entries_ok (filter_status ext root : string)
    (st : compare_state) (f : string * file_data) :
  Forall (compare_entry_ok filter_status) (c_items st) ->
  Forall (compare_entry_ok filter_status)
    (c_items (state_of (compare_file filter_status ext root st f))).
Proof.
  intros H. destruct f as [file fd]. unfold compare_file.
  destruct (filtered_out ext file); [exact H|].
  destruct (extract_text file fd) as [content|]; [|exact H].
  destruct (Re.search compare_pattern content) as [m|]; [|exact H].
  destruct (PyStr.int (Re.group m 1)) as [unequal|]; [|exact H].
  destruct (unequal =? 0)%N; cbn [state_of c_items];
    (destruct (String.eqb_spec filter_status "All") as [Ea|Ea]; cbn [orb];
     [|match goal with
       | |- context [filter_status =? ?s] =>
           destruct (String.eqb_spec filter_status s) as [Es|Es]; [|exact H]
       end]);
    (apply Forall_app; split; [exact H|]; constructor; [|constructor]);
    eexists; eexists; eexists; cbn [text data background];
    (split; [reflexivity|]; split; [reflexivity|]; split; [|tauto]);
    (left + right); split; reflexivity.
Qed.

Lemma compare_loop_invariants (filter_status ext : string)
    (w : list (string * list (string * file_data))) :
  let st := state_of (for_each (compare_dir filter_status ext) w
                        (mk_compare_state [] 0 0 0)) in
  c_total st = c_passed st + c_failed st /\
  List.length (c_items st) = counter_shown filter_status st /\
  Forall (compare_entry_ok filter_status) (c_items st).
Proof.
  cbv zeta.
  apply (for_each_invariant
           (fun st => c_total st = c_passed st + c_failed st /\
                      List.length (c_items st) = counter_shown filter_status st /\
                      Forall (compare_entry_ok filter_status) (c_items st))).
  - intros st [root files] Hst. unfold compare_dir.
    apply (for_each_invariant
           (fun st => c_total st = c_passed st + c_failed st /\
                      List.length (c_items st) = counter_shown filter_status st /\
                      Forall (compare_entry_ok filter_status) (c_items st)));
      [|exact Hst].
    intros a b [H1 [H2 H3]]. split; [|split].
    + now apply compare_file_total.
    + now apply compare_file_counter_shown.
    + now apply compare_file_entries_ok.
  - split; [reflexivity|]. split; [|constructor].
    unfold counter_shown. cbn [c_items c_total c_passed c_failed List.length].
    now repeat destruct (_ =? _).
Qed.

(** X7. The number of entries displayed after a comparison scan that
    returns is the count the summary gives for the chosen status: the
    total under "All", the passed count under "Passed", the failed count
    under "Failed". *)
Theorem displayed_entries_match_summary
    (fs : filesystem) (self w : CompareChecker) (total passed failed : nat) :
  run_compare_check fs self = Returned w ->
  compare_status w = Scanned total passed failed ->
  List.length (compare_results w)
  = if status_filter self =? "All" then total
    else if status_filter self =? "Passed" then passed
    else if status_filter self =? "Failed" then failed
    else 0.
Proof.
  unfold run_compare_check.
  destruct (fs (PyStr.strip (compare_folder self))) as [d|].
  - destruct (compare_loop_invariants (status_filter self) (compare_filetype self)
                (os_walk (PyStr.strip (compare_folder self)) d)) as [_ [Hlen _]].
    cbv zeta in Hlen.
    destruct (for_each _ _ _) as [st|st]; [|discriminate].
    intros Hw Hs. inversion Hw; subst w. clear Hw.
    cbn [compare_status compare_results set_compare_status set_compare_results] in Hs |- *.
    inversion Hs; subst. exact Hlen.
  - intros Hw Hs. inversion Hw; subst w. discriminate Hs.
Qed.

Lemma displayed_entries_match_summary_witness :
  List.length (compare_results
                 (state_of (run_compare_check reports_fs (window "/out" "" "All" "Failed"))))
  = 1.
Proof.
  apply (displayed_entries_match_summary reports_fs (window "/out" "" "All" "Failed")
           (state_of (run_compare_check reports_fs (window "/out" "" "All" "Failed")))
           3 2 1).
  - vm_compute. reflexivity.
  - vm_compute. reflexivity.
Defined.

(** X8. Every entry a comparison scan displays, whether the scan returns
    or raises, reads Passed on light green or Failed on light red, stores
    its path without a line number, and has the status the filter asks
    for unless the filter is "All". *)
Theorem compare_entries_well_formed
    (fs : filesystem) (self : CompareChecker) (it : QListWidgetItem) :
  In it (compare_results (state_of (run_compare_check fs self))) ->
  exists file status path,
    text it = CompareText file status /\
    data it = (path, None) /\
    (status = "Passed" /\ background it = Some "#c6f6c6" \/
     status = "Failed" /\ background it = Some "#f6c6c6") /\
    (status_filter self = "All" \/ status_filter self = status).
Proof.
  unfold run_compare_check.
  destruct (fs (PyStr.strip (compare_folder self))) as [d|];
    [|cbn; contradiction].
  destruct (compare_loop_invariants (status_filter self) (compare_filetype self)
              (os_walk (PyStr.strip (compare_folder self)) d)) as [_ [_ Hall]].
  cbv zeta in Hall. rewrite Forall_forall in Hall.
  destruct (for_each _ _ _) as [st|st];
    cbn [state_of compare_results set_compare_status set_compare_results];
    intros H; exact (Hall it H).
Qed.

Lemma compare_entries_well_formed_witness :
  exists file status path,
    text (mk_item (CompareText "r2.lst" "Failed") ("/out/r2.lst", None) (Some "#f6c6c6"))
    = CompareText file status /\
    data (mk_item (CompareText "r2.lst" "Failed") ("/out/r2.lst", None) (Some "#f6c6c6"))
    = (path, None) /\
    (status = "Passed" /\
     background (mk_item (CompareText "r2.lst" "Failed") ("/out/r2.lst", None) (Some "#f6c6c6"))
     = Some "#c6f6c6" \/
     status = "Failed" /\
     background (mk_item (CompareText "r2.lst" "Failed") ("/out/r2.lst", None) (Some "#f6c6c6"))
     = Some "#f6c6c6") /\
    (status_filter (window "/out" "" ".lst" "Failed") = "All" \/
     status_filter (window "/out" "" ".lst" "Failed") = status).
Proof.
  apply (compare_entries_well_formed reports_fs (window "/out" "" ".lst" "Failed")).
  vm_compute. left. reflexivity.
Defined.

(** ** The captured count *)

Definition all_zeros (digits : string) : bool :=
  all_chars (fun c => Ascii.eqb c "0") digits.

Lemma decimal_value (c : ascii) :
  PyStr.isdecimal c = true ->
  ((PyStr.ord c - 48 = 0)%N <-> c = "0"%char).
Proof.
  unfold PyStr.isdecimal, PyStr.ord. intros H.
  apply andb_true_iff in H. destruct H as [H1 H2].
  apply N.leb_le in H1. split.
  - intros H. assert (E : N_of_ascii c = 48%N) by lia.
    rewrite <- (ascii_N_embedding c), E. reflexivity.
  - intros ->. reflexivity.
Qed.

Lemma int_from_zero_iff (digits : string) :
  all_chars PyStr.isdecimal digits = true ->
  forall acc,
    PyStr.int_from acc digits = 0%N <-> acc = 0%N /\ all_zeros digits = true.
Proof.
  unfold all_zeros.
  induction digits as [|c digits IH]; intros Hd acc; simpl.
  - tauto.
  - simpl in Hd. apply andb_true_iff in Hd. destruct Hd as [Hc Hd].
    rewrite (IH Hd), andb_true_iff, Ascii.eqb_eq, <- (decimal_value c Hc).
    split; intros [H1 H2]; repeat split; try tauto; lia.
Qed.

(** X9. A classified file is Passed exactly when every digit of the
    captured count is a zero, however the count is written within the
    length [int] converts: a count written 000 passes and one written 007
    fails. *)
Theorem passed_iff_all_digits_zero
    (filter_status ext root : string) (st st' : compare_state)
    (file : string) (fd : file_data) (content : string) (m : list string) :
  filtered_out ext file = false ->
  extract_text file fd = Some content ->
  Re.search compare_pattern content = Some m ->
  compare_file filter_status ext root st (file, fd) = Returned st' ->
  (c_passed st' = S (c_passed st) <-> all_zeros (Re.group m 1) = true) /\
  (c_failed st' = S (c_failed st) <-> all_zeros (Re.group m 1) = false).
Proof.
  intros Hf He Hs Hr.
  destruct (PyStr.int (Re.group m 1)) as [unequal|] eqn:Hi.
  2: { rewrite (compare_file_oversized _ _ _ _ _ _ _ _ Hf He Hs Hi) in Hr.
       discriminate Hr. }
  rewrite (compare_file_classified _ _ _ _ _ _ _ _ _ Hf He Hs Hi) in Hr.
  cbv zeta in Hr. inversion Hr; subst st'. clear Hr.
  destruct (search_compare_sound _ _ Hs)
    as [before [phrase [spaces [digits [after [_ [_ [_ [[_ Hd] Hm]]]]]]]]].
  subst m. change (Re.group [digits] 1) with digits in *.
  pose proof (int_from_zero_iff digits Hd 0) as Hz.
  assert (Hu : PyStr.int_from 0 digits = unequal).
  { unfold PyStr.int in Hi. destruct (Nat.ltb _ _); [discriminate|].
    now inversion Hi. }
  rewrite Hu in Hz.
  destruct (N.eqb_spec unequal 0) as [E|E];
    cbn [c_passed c_failed]; rewrite ?String.eqb_refl;
    try change ("Failed" =? "Passed") with false.
  - assert (Ha : all_zeros digits = true) by (apply Hz; exact E).
    rewrite Ha. split; split; intros; try reflexivity; try discriminate; lia.
  - assert (Ha : all_zeros digits = false).
    { destruct (all_zeros digits); [|reflexivity]. exfalso. apply E, Hz. auto. }
    rewrite Ha. split; split; intros; try reflexivity; try discriminate; lia.
Qed.

Lemma passed_iff_all_digits_zero_witness :
  c_passed (state_of (compare_file "All" "All" "/out" (mk_compare_state [] 0 0 0)
                        ("r.lst", text_file (report "000"))))
  = 1.
Proof.
  apply (passed_iff_all_digits_zero "All" "All" "/out" (mk_compare_state [] 0 0 0)
           (state_of (compare_file "All" "All" "/out" (mk_compare_state [] 0 0 0)
                        ("r.lst", text_file (report "000"))))
           "r.lst" (text_file (report "000")) (report "000") ["000"]);
    vm_compute; reflexivity.
Defined.

Section Greedy.

Context {R : Type}.
Variable cls : ascii -> bool.
Variable k : string -> string -> option R.

Lemma match_plus_stops (rest : string) :
  (forall c, first_char rest = Some c -> cls c = false) ->
  forall acc, Re.match_plus cls k acc rest = None.
Proof.
  intros H acc. destruct rest as [|c rest]; simpl; [reflexivity|].
  now rewrite (H c eq_refl).
Qed.

Lemma match_plus_longest (rest : string) (r : R) :
  (forall c, first_char rest = Some c -> cls c = false) ->
  forall run acc,
    run_of cls run ->
    k (acc ++ run) rest = Some r ->
    Re.match_plus cls k acc (run ++ rest) = Some r.
Proof.
  intros Hrest. induction run as [|c run IH]; intros acc [Hne Ha] Hk; [contradiction|].
  simpl in Ha. apply andb_true_iff in Ha. destruct Ha as [Hc Ha].
  simpl. rewrite Hc. destruct run as [|d run].
  - simpl. rewrite (match_plus_stops rest Hrest). exact Hk.
  - rewrite (IH (acc ++ String c "")); [reflexivity | split; [discriminate | exact Ha] |].
    now rewrite append_snoc.
Qed.

End Greedy.

Lemma match_here_literal_exact (w : string) (p : Re.pattern) (g : list string) :
  forall phrase rest,
    PyStr.lower phrase = PyStr.lower w ->
    Re.match_here (Re.literal w ++ p)%list g (phrase ++ rest) = Re.match_here p g rest.
Proof.
  induction w as [|c w IH]; intros [|d phrase] rest H; try discriminate.
  - reflexivity.
  - simpl in H. inversion H as [[Hc Hw]].
    rewrite literal_cons. cbn [Re.match_here append].
    assert (E : Re.eq_ignorecase c d = true) by (apply eq_ignorecase_iff; exact Hc).
    rewrite E. now apply IH.
Qed.

Lemma decimal_not_space (c : ascii) :
  PyStr.isdecimal c = true -> PyStr.isspace c = false.
Proof. destruct c as [[] [] [] [] [] [] [] []]; intros H; try discriminate H; reflexivity. Qed.

Lemma search_skips_without_n (rest : string) :
  forall before,
    all_chars (fun d => negb (Re.eq_ignorecase "N" d)) before = true ->
    Re.search compare_pattern (before ++ rest) = Re.search compare_pattern rest.
Proof.
  induction before as [|d before IH]; intros H; [reflexivity|].
  simpl in H. apply andb_true_iff in H. destruct H as [Hd H].
  apply negb_true_iff in Hd.
  change ((String d before) ++ rest) with (String d (before ++ rest)).
  cbn [Re.search].
  replace (Re.match_here compare_pattern [] (String d (before ++ rest))) with (@None (list string)).
  - now apply IH.
  - change compare_pattern
      with (Re.Lit "N" :: (Re.literal "umber of Observations with Some Compared Variables Unequal:"
                             ++ [Re.ClassPlus PyStr.isspace false; Re.ClassPlus PyStr.isdecimal true])%list).
    cbn [Re.match_here]. now rewrite Hd.
Qed.

(** X10. When nothing before the first marker phrase contains the letter
    N in either case and the digits after it are not followed by another
    digit, the scan of that text captures exactly that whole run of
    digits: the first occurrence decides, whatever comes later in the
    text, later occurrences of the phrase included. *)
Theorem first_occurrence_decides (before phrase spaces digits after : string) :
  all_chars (fun d => negb (Re.eq_ignorecase "N" d)) before = true ->
  PyStr.lower phrase = PyStr.lower marker_phrase ->
  run_of PyStr.isspace spaces ->
  run_of PyStr.isdecimal digits ->
  (forall c, first_char after = Some c -> PyStr.isdecimal c = false) ->
  Re.search compare_pattern (before ++ phrase ++ spaces ++ digits ++ after)
  = Some [digits].
Proof.
  intros Hb Hp Hs Hd Ha. rewrite (search_skips_without_n _ before Hb).
  assert (Hm : Re.match_here compare_pattern [] (phrase ++ spaces ++ digits ++ after)
               = Some [digits]).
  { unfold compare_pattern. rewrite (match_here_literal_exact _ _ _ _ _ Hp).
    cbn [Re.match_here]. apply match_plus_longest; [| exact Hs |].
    - intros c Hc. destruct Hd as [Hne Hall].
      destruct digits as [|e digits]; [contradiction|].
      simpl in Hc. inversion Hc; subst. simpl in Hall.
      apply andb_true_iff in Hall. now apply decimal_not_space.
    - apply match_plus_longest; [exact Ha | exact Hd | reflexivity]. }
  destruct (phrase ++ spaces ++ digits ++ after); cbn [Re.search]; now rewrite Hm.
Qed.

Lemma first_occurrence_decides_witness :
  Re.search compare_pattern
    ("The COMPARE Procedure" ++ nl ++ marker_phrase ++ "  " ++ "0"
       ++ (nl ++ marker_phrase ++ " 7"))
  = Some ["0"].
Proof.
  apply (first_occurrence_decides ("The COMPARE Procedure" ++ nl) marker_phrase "  " "0"
           (nl ++ marker_phrase ++ " 7")).
  - reflexivity.
  - reflexivity.
  - split; [discriminate | reflexivity].
  - split; [discriminate | reflexivity].
  - intros c H. vm_compute in H. inversion H. reflexivity.
Defined.

(** What the classifier reads off one walked file: the captured count
    when the file passes the extension filter, can be read, holds the
    marker and the count converts. *)
Definition classified (ext : string) (rf : string * (string * file_data)) : option N :=
  let file := fst (snd rf) in
  if filtered_out ext file then None
  else match extract_text file (snd (snd rf)) with
       | None => None
       | Some content =>
           match Re.search compare_pattern content with
           | None => None
           | Some m => PyStr.int (Re.group m 1)
           end
       end.

(** The walked file passes the extension filter, can be read and holds
    the marker with a count too long to convert. *)
Definition oversized (ext : string) (rf : string * (string * file_data)) : bool :=
  let file := fst (snd rf) in
  if filtered_out ext file then false
  else match extract_text file (snd (snd rf)) with
       | None => false
       | Some content =>
           match Re.search compare_pattern content with
           | None => false
           | Some m => Nat.ltb PyStr.max_str_digits (String.length (Re.group m 1))
           end
       end.

Definition is_passed (ext : string) (rf : string * (string * file_data)) : bool :=
  match classified ext rf with
  | Some n => (n =? 0)%N
  | None => false
  end.

Definition is_failed (ext : string) (rf : string * (string * file_data)) : bool :=
  match classified ext rf with
  | Some n => negb (n =? 0)%N
  | None => false
  end.

Lemma compare_file_counts (filter_status ext root : string) (st : compare_state)
    (f : string * file_data) :
  let o := compare_file filter_status ext root st f in
  c_passed (state_of o) = c_passed st + (if is_passed ext (root, f) then 1 else 0) /\
  c_failed (state_of o) = c_failed st + (if is_failed ext (root, f) then 1 else 0) /\
  raised o = oversized ext (root, f).
Proof.
  cbv zeta. destruct f as [file fd].
  unfold is_passed, is_failed, classified, oversized, compare_file. cbn [fst snd].
  destruct (filtered_out ext file); [cbn; repeat split; lia|].
  destruct (extract_text file fd) as [content|]; [|cbn; repeat split; lia].
  destruct (Re.search compare_pattern content) as [m|]; [|cbn; repeat split; lia].
  unfold PyStr.int.
  destruct (Nat.ltb PyStr.max_str_digits (String.length (Re.group m 1)));
    [cbn; repeat split; lia|].
  destruct (PyStr.int_from 0 (Re.group m 1) =? 0)%N;
    cbn [state_of raised c_passed c_failed negb];
    rewrite ?String.eqb_refl; try change ("Failed" =? "Passed") with false;
    cbv beta iota; repeat split; lia.
Qed.

Lemma compare_loop_counts (filter_status ext : string)
    (l : list (string * (string * file_data))) :
  forall st st',
    for_each (fun st rf => compare_file filter_status ext (fst rf) st (snd rf)) l st
    = Returned st' ->
    c_passed st' = c_passed st + List.length (filter (is_passed ext) l) /\
    c_failed st' = c_failed st + List.length (filter (is_failed ext) l).
Proof.
  induction l as [|[root f] l IH]; intros st st' H.
  - simpl in H. inversion H. simpl. lia.
  - cbn [for_each filter fst snd] in H |- *.
    destruct (compare_file_counts filter_status ext root st f) as [Hp1 [Hf1 _]].
    cbv zeta in Hp1, Hf1.
    destruct (compare_file filter_status ext root st f) as [a|a]; [|discriminate].
    destruct (IH a st' H) as [Hp Hf]. cbn [state_of] in Hp1, Hf1.
    rewrite Hp, Hf, Hp1, Hf1.
    destruct (is_passed ext (root, f)); destruct (is_failed ext (root, f));
      cbn [List.length]; lia.
Qed.

(** X11. A comparison scan of an existing folder raises exactly when some
    walked file passes the extension filter, can be read and holds the
    marker with a count too long to convert.  When it returns, the summary
    counts as passed the walked files that pass the filter, can be read
    and hold the marker with a count of zero, as failed those that hold it
    with another count, and as total the two together; files that cannot
    be read or lack the marker are in none of the three. *)
Theorem compare_summary_counts (fs : filesystem) (self : CompareChecker) (d : dir) :
  fs (PyStr.strip (compare_folder self)) = Some d ->
  let walked := walked_files (os_walk (PyStr.strip (compare_folder self)) d) in
  let ext := compare_filetype self in
  raised (run_compare_check fs self) = existsb (oversized ext) walked /\
  forall w,
    run_compare_check fs self = Returned w ->
    compare_status w
    = Scanned
        (List.length (filter (is_passed ext) walked)
         + List.length (filter (is_failed ext) walked))
        (List.length (filter (is_passed ext) walked))
        (List.length (filter (is_failed ext) walked)).
Proof.
  intros Hd. cbv zeta. unfold run_compare_check.
  cbn [compare_folder compare_filetype status_filter set_compare_results].
  rewrite Hd.
  destruct (compare_loop_invariants (status_filter self) (compare_filetype self)
              (os_walk (PyStr.strip (compare_folder self)) d)) as [Ht _].
  cbv zeta in Ht.
  rewrite (nested_for_each_flat (compare_file _ (compare_filetype self)))
    in Ht |- * by (intros; reflexivity).
  pose proof (for_each_raised (oversized (compare_filetype self))
                (fun st rf => compare_file (status_filter self) (compare_filetype self)
                                (fst rf) st (snd rf))
                (fun a b => proj2 (proj2 (compare_file_counts _ _ (fst b) a (snd b))))
                (walked_files (os_walk (PyStr.strip (compare_folder self)) d))
                (mk_compare_state [] 0 0 0)) as Hraise.
  pose proof (compare_loop_counts (status_filter self) (compare_filetype self)
                (walked_files (os_walk (PyStr.strip (compare_folder self)) d))
                (mk_compare_state [] 0 0 0)) as Hcount.
  destruct (for_each _ _ _) as [st|st]; cbn [raised state_of] in *.
  - split; [exact Hraise|]. intros w Hw. inversion Hw; subst w.
    cbn [compare_status set_compare_status].
    destruct (Hcount st eq_refl) as [Hp Hf]. cbn [c_passed c_failed] in Hp, Hf.
    rewrite Ht, Hp, Hf. reflexivity.
  - split; [exact Hraise | intros w Hw; discriminate Hw].
Qed.

Lemma compare_summary_counts_witness :
  raised (run_compare_check oversized_fs (window "/out" "" ".lst" "Passed")) = true.
Proof.
  rewrite (proj1 (compare_summary_counts oversized_fs (window "/out" "" ".lst" "Passed")
                    (Dir [("r1.lst", text_file (report "0"));
                          ("big.lst", text_file oversized_report);
                          ("r2.lst", text_file (report "3"))] [])
                    eq_refl)).
  vm_compute. reflexivity.
Defined.

Example compare_summary_counts_example :
  run_compare_check reports_fs (window "/out" "" ".lst" "Passed")
  = Returned
      (mk_window "/out" "" ".lst" [] NoText "/out" ".lst" "Passed"
         [mk_item (CompareText "r1.lst" "Passed") ("/out/r1.lst", None) (Some "#c6f6c6")]
         (Scanned 2 1 1)).
Proof. vm_compute. reflexivity. Qed.

(** X12. The two scans keep to their own widgets: a search leaves the
    comparison list and status as they were, a comparison scan, whether
    it returns or raises, leaves the search list and status as they were,
    neither changes what the user entered, and so running both gives the
    same window and the same ending in either order. *)
Theorem scans_are_independent (fs : filesystem) (self : CompareChecker) :
  let searched := run_text_search fs self in
  let compared := run_compare_check fs self in
  (compare_results searched = compare_results self /\
   compare_status searched = compare_status self) /\
  (search_results (state_of compared) = search_results self /\
   search_status (state_of compared) = search_status self) /\
  (search_folder searched = search_folder self /\
   search_input searched = search_input self /\
   filetype_combo searched = filetype_combo self /\
   compare_folder (state_of compared) = compare_folder self /\
   compare_filetype (state_of compared) = compare_filetype self /\
   status_filter (state_of compared) = status_filter self) /\
  run_compare_check fs searched = outcome_map (run_text_search fs) compared.
Proof.
  cbv zeta. unfold run_text_search, run_compare_check.
  cbn [search_folder search_input filetype_combo compare_folder compare_filetype
       status_filter set_search_results set_compare_results].
  destruct (fs (PyStr.strip (search_folder self))) eqn:Hs;
    destruct (fs (PyStr.strip (compare_folder self))) eqn:Hc;
    cbn [search_folder search_input filetype_combo compare_folder compare_filetype
         status_filter search_results search_status compare_results compare_status
         set_search_results set_search_status set_compare_results set_compare_status];
    rewrite ?Hs, ?Hc;
    try destruct (for_each (compare_dir _ _) _ _);
    cbn [state_of outcome_map
         search_folder search_input filetype_combo compare_folder compare_filetype
         status_filter search_results search_status compare_results compare_status
         set_search_results set_search_status set_compare_results set_compare_status];
    rewrite ?Hs;
    cbn [search_folder search_input filetype_combo compare_folder compare_filetype
         status_filter search_results search_status compare_results compare_status
         set_search_results set_search_status set_compare_results set_compare_status];
    repeat split.
Qed.

(** ** Opening an entry in the editor *)

(** What a call leaves behind: a process started with a command line, or
    a message printed. *)
Inductive event : Type :=
| Popen (argv : list string)
| Print (msg : string).

(** [subprocess.Popen] on this machine: [None] when the process starts,
    the text of the exception when it raises. *)
Definition launcher : Type := list string -> option string.

(** [str(n)] *)
Definition str (n : nat) : string :=
  DecimalString.NilZero.string_of_uint (Nat.to_uint n).

Definition npp_path : string := "C:\Program Files\Notepad++\notepad++.exe".

(** [launch_notepadpp(filepath, line_number=None)]; [if line_number:]
    holds for a number other than zero. *)
Definition launch_notepadpp (popen : launcher) (filepath : string)
    (line_number : option nat) : list event :=
  let truthy := match line_number with
                | Some n => negb (Nat.eqb n 0)
                | None => false
                end in
  let argv := if truthy then
                match line_number with
                | Some n => [npp_path; "-n" ++ str n; filepath]
                | None => [npp_path; filepath]
                end
              else [npp_path; filepath] in
  match popen argv with
  | None => [Popen argv]
  | Some e => [Print ("Error launching Notepad++: " ++ e)]
  end.

(** [open_file_line(self, item)]; [exists_] is [os.path.exists]. *)
Definition open_file_line (exists_ : string -> bool) (popen : launcher)
    (item : QListWidgetItem) : list event :=
  let (path, lineno) := data item in
  if exists_ path then launch_notepadpp popen path lineno else [].

Example open_search_hit :
  open_file_line (fun _ => true) (fun _ => None)
    (mk_item (SearchText "a.sas" 12 "ERROR: bad value") ("/proj/a.sas", Some 12) None)
  = [Popen [npp_path; "-n12"; "/proj/a.sas"]].
Proof. reflexivity. Qed.

Lemma search_results_shape (fs : filesystem) (self : CompareChecker)
    (it : QListWidgetItem) :
  In it (search_results (run_text_search fs self)) ->
  exists file path i line,
    it = mk_item (SearchText file (S i) (PyStr.strip line)) (path, Some (S i)) None.
Proof.
  destruct (fs (PyStr.strip (search_folder self))) as [d|] eqn:Hd.
  - destruct (run_text_search_valid fs self d Hd) as [Hres _]. rewrite Hres.
    intros H. apply in_flat_map in H. destruct H as [[root [file fd]] [_ H]].
    unfold file_hits, line_hits in H. cbn [fst snd] in H.
    destruct (read_by_search (filetype_combo self) file); [|contradiction].
    destruct (as_text fd) as [content|]; [|contradiction].
    apply in_map_iff in H. destruct H as [[i line] [Heq H]].
    apply filter_In in H. destruct H as [H _].
    apply in_enumerate in H. destruct H as [j [Hi _]].
    exists file, (os_path_join root file), j, line. subst. reflexivity.
  - unfold run_text_search. cbn [search_folder set_search_results]. rewrite Hd.
    cbn. contradiction.
Qed.

Lemma compare_results_shape (fs : filesystem) (self : CompareChecker)
    (it : QListWidgetItem) :
  In it (compare_results (state_of (run_compare_check fs self))) ->
  exists path, data it = (path, None).
Proof.
  unfold run_compare_check.
  destruct (fs (PyStr.strip (compare_folder self))) as [d|];
    [|cbn; contradiction].
  destruct (compare_loop_invariants (status_filter self) (compare_filetype self)
              (os_walk (PyStr.strip (compare_folder self)) d)) as [_ [_ Hall]].
  cbv zeta in Hall. rewrite Forall_forall in Hall.
  destruct (for_each _ _ _) as [st|st];
    cbn [state_of compare_results set_compare_status set_compare_results];
    intros H; destruct (Hall it H) as [file [status [path [_ [Hdata _]]]]]; eauto.
Qed.

(** X13. Clicking an entry of a search's result list, when its file
    still exists and the editor can be started, starts Notepad++ on that
    file with the option [-n] followed by the line number the entry
    shows; no search entry is ever opened without a line number. *)
Theorem search_hit_opens_at_its_line
    (fs : filesystem) (self : CompareChecker) (it : QListWidgetItem)
    (exists_ : string -> bool) (popen : launcher) :
  In it (search_results (run_text_search fs self)) ->
  exists_ (fst (data it)) = true ->
  (forall argv, popen argv = None) ->
  exists file i shown_line,
    text it = SearchText file i shown_line /\
    open_file_line exists_ popen it
    = [Popen [npp_path; "-n" ++ str i; fst (data it)]].
Proof.
  intros Hin Hex Hp.
  destruct (search_results_shape fs self it Hin) as [file [path [i [line ->]]]].
  exists file, (S i), (PyStr.strip line). split; [reflexivity|].
  unfold open_file_line, launch_notepadpp. cbn [data fst] in Hex |- *.
  rewrite Hex. cbn [Nat.eqb negb]. now rewrite Hp.
Qed.

Lemma search_hit_opens_at_its_line_witness :
  exists file i shown_line,
    SearchText "a.sas" 2 "ERROR: bad value" = SearchText file i shown_line /\
    open_file_line (fun _ => true) (fun _ => None)
      (mk_item (SearchText "a.sas" 2 "ERROR: bad value") ("/proj/a.sas", Some 2) None)
    = [Popen [npp_path; "-n" ++ str i; "/proj/a.sas"]].
Proof.
  apply (search_hit_opens_at_its_line project_fs (window "/proj" "error" "All" "All")
           (mk_item (SearchText "a.sas" 2 "ERROR: bad value") ("/proj/a.sas", Some 2) None)
           (fun _ => true) (fun _ => None)).
  - left. reflexivity.
  - reflexivity.
  - reflexivity.
Defined.

(** X14. Clicking an entry a comparison scan has put in its list,
    whether the scan returned or raised, when the entry's file still
    exists and the editor can be started, starts Notepad++ on that file
    with no line option. *)
Theorem compare_entry_opens_without_line
    (fs : filesystem) (self : CompareChecker) (it : QListWidgetItem)
    (exists_ : string -> bool) (popen : launcher) :
  In it (compare_results (state_of (run_compare_check fs self))) ->
  exists_ (fst (data it)) = true ->
  (forall argv, popen argv = None) ->
  open_file_line exists_ popen it = [Popen [npp_path; fst (data it)]].
Proof.
  intros Hin Hex Hp.
  destruct (compare_results_shape fs self it Hin) as [path Hd].
  unfold open_file_line, launch_notepadpp. rewrite Hd in Hex |- *.
  cbn [fst] in Hex |- *. rewrite Hex. now rewrite Hp.
Qed.

Lemma compare_entry_opens_without_line_witness :
  open_file_line (fun _ => true) (fun _ => None)
    (mk_item (CompareText "r2.lst" "Failed") ("/out/r2.lst", None) (Some "#f6c6c6"))
  = [Popen [npp_path; "/out/r2.lst"]].
Proof.
  apply (compare_entry_opens_without_line reports_fs (window "/out" "" ".lst" "Failed")).
  - vm_compute. left. reflexivity.
  - reflexivity.
  - reflexivity.
Defined.

(** X15. Whatever entry is clicked, at most one thing happens: nothing
    when the file no longer exists; otherwise either one process is
    started, Notepad++ with the entry's path as its last argument and at
    most a [-n] option for a line number other than zero in between, or,
    when starting it raises, one message is printed and nothing is
    raised further. *)
Theorem open_file_line_outcomes
    (exists_ : string -> bool) (popen : launcher) (it : QListWidgetItem) :
  let path := fst (data it) in
  let events := open_file_line exists_ popen it in
  (exists_ path = false -> events = []) /\
  (exists_ path = true ->
   (exists argv,
      events = [Popen argv] /\ popen argv = None /\
      (argv = [npp_path; path] \/
       exists n, snd (data it) = Some (S n) /\
                 argv = [npp_path; "-n" ++ str (S n); path])) \/
   (exists e, events = [Print ("Error launching Notepad++: " ++ e)])).
Proof.
  cbv zeta. unfold open_file_line. destruct (data it) as [path lineno].
  cbn [fst snd]. split; intros Hex; rewrite Hex; [reflexivity|].
  unfold launch_notepadpp.
  destruct lineno as [[|n]|]; cbn [Nat.eqb negb];
    match goal with
    | |- context [popen ?a] => destruct (popen a) as [e|] eqn:Hp
    end;
    try (right; eexists; reflexivity);
    left; eexists; (split; [reflexivity|]); (split; [exact Hp|]);
    [left; reflexivity | right; eexists; split; reflexivity | left; reflexivity].
Qed.

Example open_vanished_file :
  open_file_line (fun _ => false) (fun _ => None)
    (mk_item (SearchText "a.sas" 2 "x") ("/proj/a.sas", Some 2) None) = [].
Proof. reflexivity. Qed.

(** ** Which reader a file gets *)

(** X17. The extension filter compares the lowercased name, the choice
    of reader the name as it is: a file whose name ends in [.pdf] only
    after lowercasing (such as [R3.PDF]) passes the [.pdf] filter and is
    then read as plain text, so its pages play no part in the scan. *)
Theorem upper_case_pdf_is_read_as_text
    (filter_status root : string) (st : compare_state) (file : string)
    (raw : option string) (pages pages' : option (list string)) :
  PyStr.endswith (PyStr.lower file) ".pdf" = true ->
  PyStr.endswith file ".pdf" = false ->
  filtered_out ".pdf" file = false /\
  extract_text file (mk_file_data raw pages) = raw /\
  compare_file filter_status ".pdf" root st (file, mk_file_data raw pages)
  = compare_file filter_status ".pdf" root st (file, mk_file_data raw pages').
Proof.
  intros Hl Hf.
  assert (Hfo : filtered_out ".pdf" file = false).
  { apply filtered_out_false_iff. now right. }
  unfold compare_file, extract_text. rewrite Hfo, Hf. cbn [as_text].
  repeat split.
Qed.

Lemma upper_case_pdf_is_read_as_text_witness :
  compare_file "All" ".pdf" "/out" (mk_compare_state [] 0 0 0)
    ("R3.PDF", mk_file_data (Some "%PDF-1.7") (Some [report "0"]))
  = compare_file "All" ".pdf" "/out" (mk_compare_state [] 0 0 0)
      ("R3.PDF", mk_file_data (Some "%PDF-1.7") None).
Proof.
  apply (upper_case_pdf_is_read_as_text "All" "/out" (mk_compare_state [] 0 0 0) "R3.PDF"
           (Some "%PDF-1.7") (Some [report "0"]) None);
    reflexivity.
Defined.

(** X18. A comparison scan starts from an empty list: what its list held
    before has no effect on the outcome, and what its status line held
    has none either when the scan returns (when it raises, the status
    line is the one thing left as it was).  Scanning again without
    changing the inputs ends the same way with the same window. *)
Theorem compare_starts_afresh (fs : filesystem) (self : CompareChecker)
    (old : list QListWidgetItem) (status : label_text) :
  run_compare_check fs (set_compare_status (set_compare_results self old) status)
  = match run_compare_check fs self with
    | Returned w => Returned w
    | Raised w => Raised (set_compare_status w status)
    end /\
  run_compare_check fs (state_of (run_compare_check fs self))
  = run_compare_check fs self.
Proof.
  split.
  - unfold run_compare_check.
    cbn [compare_folder compare_filetype status_filter
         set_compare_status set_compare_results].
    destruct (fs (PyStr.strip (compare_folder self))); [|reflexivity].
    destruct (for_each _ _ _); reflexivity.
  - unfold run_compare_check at 2.
    destruct (fs (PyStr.strip (compare_folder self))) as [d|] eqn:Hd.
    + destruct (for_each _ _ _) as [st|st] eqn:Hl;
        unfold run_compare_check;
        cbn [state_of compare_folder compare_filetype status_filter
             set_compare_status set_compare_results];
        rewrite Hd, Hl; reflexivity.
    + unfold run_compare_check.
      cbn [state_of compare_folder compare_filetype status_filter
           set_compare_status set_compare_results].
      rewrite Hd. reflexivity.
Qed.
